(** * Medical Surge Radar: the calculation block of [src/surge_radar.py]

    The script is a straight line of arithmetic over four slider values
    (lines 15-18), followed by an if/elif chain that picks one of four
    banners (lines 63-72).  Every intermediate quantity is either a Python
    [int] (unbounded, modelled by [Z]) or a Python [float] (IEEE-754
    binary64, modelled by the rational it denotes).

    The arithmetic on floats is modelled exactly: every operation is the
    exact rational result rounded to the nearest 53-bit significand, ties
    to even ([Binary64.round]).  The script only ever feeds integers and
    the decimal literals 0.05, 0.01, 0.65, 0.15, 0.95 into its float
    expressions, so no result is ever small enough to be subnormal; a
    result too large for a double makes Python raise [OverflowError]
    (directly at an int-to-float conversion or a true division, or at the
    [int()] of an infinite product), which the model records as [None].

    The file first transcribes the script, then develops what is needed
    about rounding (it is monotone and off by at most [2^-53] of the exact
    value), and ends with the properties of the script. *)

From Stdlib Require Import ZArith QArith Qround Qabs Qpower Qreduction.
From Stdlib Require Import Lqa Lia Bool List String SpecFloat.
From Stdlib Require Import DecimalString Qminmax.

Local Open Scope Z_scope.
Local Open Scope Q_scope.

(* ================================================================= *)
(** ** IEEE-754 binary64, as rationals *)

Module Binary64.

(** Significand width and the exponent at which doubles overflow. *)
Definition prec : Z := 53.
Definition emax : Z := 1024.

Definition pow2 (z : Z) : Q := Qpower 2 z.

Definition Qlt_bool (x y : Q) : bool := negb (Qle_bool y x).

(** [ilog2 x] is the binade of a positive [x]: [2^e <= x < 2^(e+1)]. *)
Definition ilog2 (x : Q) : Z :=
  let d := (Z.log2 (Qnum x) - Z.log2 (Zpos (Qden x)))%Z in
  if Qle_bool (pow2 d) x then d else (d - 1)%Z.

(** Nearest integer, ties to the even one. *)
Definition rne (x : Q) : Z :=
  let f := Qfloor x in
  match Qcompare (x - inject_Z f) (1 # 2) with
  | Lt => f
  | Gt => (f + 1)%Z
  | Eq => if Z.even f then f else (f + 1)%Z
  end.

(** Rounding of a positive rational to [prec] significant bits. *)
Definition round_pos (x : Q) : Q :=
  let s := (ilog2 x - (prec - 1))%Z in
  inject_Z (rne (x / pow2 s)) * pow2 s.

(** Round to nearest, ties to even; the result is a reduced fraction. *)
Definition round (x : Q) : Q :=
  Qred (match Qcompare x 0 with
        | Eq => 0
        | Gt => round_pos x
        | Lt => - round_pos (- x)
        end).

(** A rounded result is a finite double when its magnitude stays
    below [2^emax]. *)
Definition finite (x : Q) : option Q :=
  if Qlt_bool (Qabs x) (pow2 emax) then Some x else None.

(** The double an exact result [x] is delivered as, if there is one. *)
Definition rounded (x : Q) : option Q := finite (round x).

End Binary64.

(* ================================================================= *)
(** ** The Python operators the script uses *)

Module Py.

(** A finite Python float, as the rational it denotes. *)
Definition pyfloat : Type := Q.

(** Evaluation either yields a value or raises; [None] is the raise. *)
Definition bind {A B : Type} (m : option A) (k : A -> option B) : option B :=
  match m with
  | Some a => k a
  | None => None
  end.

(** A decimal literal such as [0.05] denotes the nearest double. *)
Definition float_literal (q : Q) : pyfloat := Binary64.round q.

(** [float(n)], as done implicitly when an int meets a float. *)
Definition float_of_int (n : Z) : option pyfloat :=
  Binary64.rounded (inject_Z n).

(** [x * y] and [x + y] on floats. *)
Definition float_mul (x y : pyfloat) : option pyfloat :=
  Binary64.rounded (x * y).

Definition float_add (x y : pyfloat) : option pyfloat :=
  Binary64.rounded (x + y).

(** [a / b] on ints: the correctly rounded quotient. *)
Definition int_truediv (a b : Z) : option pyfloat :=
  if (b =? 0)%Z then None
  else Binary64.rounded (inject_Z a / inject_Z b).

(** [n * y] and [x * n] with [n] an int: the int is converted first. *)
Definition int_mul_float (n : Z) (y : pyfloat) : option pyfloat :=
  bind (float_of_int n) (fun x => float_mul x y).

Definition float_mul_int (x : pyfloat) (n : Z) : option pyfloat :=
  bind (float_of_int n) (fun y => float_mul x y).

(** [n + y] with [n] an int. *)
Definition int_add_float (n : Z) (y : pyfloat) : option pyfloat :=
  bind (float_of_int n) (fun x => float_add x y).

(** [max(0, x)]: Python keeps the first argument unless the second is
    strictly greater. *)
Definition max0 (x : pyfloat) : pyfloat :=
  if Binary64.Qlt_bool 0 x then x else 0.

(** [int(x)]: truncation toward zero. *)
Definition int_of_float (x : pyfloat) : Z :=
  Z.quot (Qnum x) (Zpos (Qden x)).

(** [n >= x] with [n] an int and [x] a float: Python compares exactly. *)
Definition int_ge_float (n : Z) (x : pyfloat) : bool :=
  Qle_bool x (inject_Z n).

End Py.

Import Py.

Notation "x <- m ;; k" := (bind m (fun x => k))
  (at level 61, m at next level, right associativity).

(* ================================================================= *)
(** ** The script *)

Local Open Scope string_scope.

(** Lines 10-11. *)
Definition BASELINE_ED_CAPACITY : Z := 80.
Definition CRITICAL_NEDOCS_THRESHOLD : Z := 140.

(** Lines 15-18: the four sidebar widgets. *)
Record ScenarioInput : Type := mkScenarioInput {
  attendance : Z;
  temp : Z;
  humidity : Z;
  venue_type : string
}.

Definition Stadium : string := "Stadium (Bounded)".
Definition FanZone : string := "Fan Zone (Unbounded)".

(** The values the widgets can deliver, by range (the sliders further
    restrict attendance and humidity to steps of 5000 and 5). *)
Definition in_slider_range (i : ScenarioInput) : Prop :=
  (10000 <= attendance i <= 150000)%Z /\
  (60 <= temp i <= 120)%Z /\
  (10 <= humidity i <= 100)%Z /\
  (venue_type i = Stadium \/ venue_type i = FanZone).

(** Line 25. *)
Definition base_ppr_per_10k : pyfloat := 15.

(** Line 29. *)
Definition heat_index_multiplier (temp humidity : Z) : option pyfloat :=
  t <- int_mul_float (temp - 85) (float_literal 0.05) ;;
  s <- float_add 1 (max0 t) ;;
  h <- int_mul_float (humidity - 60) (float_literal 0.01) ;;
  float_add s (max0 h).

(** Line 32. *)
Definition venue_multiplier (venue_type : string) : pyfloat :=
  if String.eqb venue_type "Fan Zone (Unbounded)" then 2 else 1.

(** Line 35, the float inside [int(...)]: the product is taken left to
    right. *)
Definition patient_load (i : ScenarioInput) : option pyfloat :=
  him <- heat_index_multiplier (temp i) (humidity i) ;;
  q <- int_truediv (attendance i) 10000 ;;
  p <- float_mul q base_ppr_per_10k ;;
  p <- float_mul p him ;;
  float_mul p (venue_multiplier (venue_type i)).

(** Line 35. *)
Definition total_patients (i : ScenarioInput) : option Z :=
  p <- patient_load i ;;
  Some (int_of_float p).

(** Lines 39-40. *)
Definition onsite_treat (total_patients : Z) : option Z :=
  x <- int_mul_float total_patients (float_literal 0.65) ;;
  Some (int_of_float x).

Definition acs_telehealth (total_patients : Z) : option Z :=
  x <- int_mul_float total_patients (float_literal 0.15) ;;
  Some (int_of_float x).

(** Line 41: plain integer subtraction. *)
Definition ed_transports (total_patients onsite_treat acs_telehealth : Z) : Z :=
  (total_patients - onsite_treat - acs_telehealth)%Z.

(** Line 46. *)
Definition surge_burden (ed_transports : Z) : option pyfloat :=
  q <- int_truediv ed_transports BASELINE_ED_CAPACITY ;;
  float_mul_int q 60.

(** Line 47, the float inside [int(...)]. *)
Definition nedocs_raw (ed_transports : Z) : option pyfloat :=
  sb <- surge_burden ed_transports ;;
  int_add_float 80 sb.

(** Line 47: the score before the cap. *)
Definition nedocs_uncapped (ed_transports : Z) : option Z :=
  raw <- nedocs_raw ed_transports ;;
  Some (int_of_float raw).

(** Line 50: the score every later line reads. *)
Definition nedocs_score (ed_transports : Z) : option Z :=
  n <- nedocs_uncapped ed_transports ;;
  Some (Z.min n 200).

(** Line 58. *)
Definition warning_threshold : option pyfloat :=
  int_mul_float CRITICAL_NEDOCS_THRESHOLD (float_literal 0.95).

(** Lines 63-72: the four branches of the banner chain, in the order of
    the chain. *)
Inductive SeverityTier : Type :=
| Override   (* line 64, st.error: heat-casualty override *)
| Critical   (* line 68, st.error: system failure imminent *)
| Warning    (* line 70, st.warning *)
| Normal.    (* line 72, st.success *)

Definition banner (temp nedocs_score : Z) : option SeverityTier :=
  wt <- warning_threshold ;;
  Some (if (temp >=? 98)%Z then Override
        else if (nedocs_score >=? CRITICAL_NEDOCS_THRESHOLD)%Z then Critical
        else if int_ge_float nedocs_score wt then Warning
        else Normal).

(** What the charts and the banner are drawn from. *)
Record SurgeEstimate : Type := mkSurgeEstimate {
  totalPatients : Z;
  onSite : Z;
  deflected : Z;
  edTransports : Z;
  nedocsScoreRaw : pyfloat;
  nedocsScoreCapped : Z;
  tier : SeverityTier
}.

(** The whole script, top to bottom. *)
Definition evaluate (i : ScenarioInput) : option SurgeEstimate :=
  total <- total_patients i ;;
  onsite <- onsite_treat total ;;
  acs <- acs_telehealth total ;;
  let ed := ed_transports total onsite acs in
  raw <- nedocs_raw ed ;;
  score <- nedocs_score ed ;;
  b <- banner (temp i) score ;;
  Some (mkSurgeEstimate total onsite acs ed raw score b).

(** The two corners of the slider ranges. *)
Definition lowest_input : ScenarioInput := mkScenarioInput 10000 60 10 Stadium.
Definition highest_input : ScenarioInput := mkScenarioInput 150000 120 100 FanZone.

(** [lo, lo + 1, ..., lo + len - 1]. *)
Definition Zrange (lo : Z) (len : nat) : list Z :=
  List.map (fun k => (lo + Z.of_nat k)%Z) (List.seq 0 len).

(** Both truncated buckets of [n] are the exact floors of 65% and 15%. *)
Definition alloc_exact (n : Z) : bool :=
  match onsite_treat n, acs_telehealth n with
  | Some a, Some b => ((a =? 65 * n / 100) && (b =? 15 * n / 100))%Z
  | _, _ => false
  end.

(* ================================================================= *)
(** ** The same lines over the standard library's IEEE-754 operations

    [SpecFloat] is the bit-level specification of binary64 that Rocq's
    own primitive floats are held to.  The script is transcribed a second
    time over it, to check the rational model above against it on sample
    inputs.  (Here an int is converted before it is divided, which is
    Python's [a / b] only while both ints are below [2^53].) *)

Module Ieee.

Definition of_int (n : Z) : spec_float := binary_normalize 53 1024 n 0 false.
Definition mul : spec_float -> spec_float -> spec_float := SFmul 53 1024.
Definition add : spec_float -> spec_float -> spec_float := SFadd 53 1024.
Definition div : spec_float -> spec_float -> spec_float := SFdiv 53 1024.

(** The double nearest to the decimal [n / d]. *)
Definition decimal (n d : Z) : spec_float := div (of_int n) (of_int d).

Definition max0 (x : spec_float) : spec_float :=
  if SFltb (of_int 0) x then x else of_int 0.

(** The rational a finite double denotes. *)
Definition value (x : spec_float) : option Q :=
  match x with
  | S754_zero _ => Some 0
  | S754_finite s m e =>
      Some (Qred ((if s then - inject_Z (Zpos m) else inject_Z (Zpos m))
                  * Binary64.pow2 e))
  | _ => None
  end.

Definition heat_index_multiplier (temp humidity : Z) : spec_float :=
  add (add (of_int 1) (max0 (mul (of_int (temp - 85)) (decimal 5 100))))
      (max0 (mul (of_int (humidity - 60)) (decimal 1 100))).

Definition patient_load (i : ScenarioInput) : spec_float :=
  mul (mul (mul (div (of_int (attendance i)) (of_int 10000)) (of_int 15))
           (heat_index_multiplier (temp i) (humidity i)))
      (if String.eqb (venue_type i) "Fan Zone (Unbounded)"
       then of_int 2 else of_int 1).

Definition onsite_load (n : Z) : spec_float := mul (of_int n) (decimal 65 100).
Definition acs_load (n : Z) : spec_float := mul (of_int n) (decimal 15 100).

Definition nedocs_raw (ed : Z) : spec_float :=
  add (of_int 80) (mul (div (of_int ed) (of_int 80)) (of_int 60)).

Definition warning_threshold : spec_float := mul (of_int 140) (decimal 95 100).

End Ieee.

Definition same_value (a : option pyfloat) (b : spec_float) : bool :=
  match a, Ieee.value b with
  | Some x, Some y => Qeq_bool x y
  | None, None => true
  | _, _ => false
  end.

Definition agree_on_input (i : ScenarioInput) : bool :=
  same_value (heat_index_multiplier (temp i) (humidity i))
             (Ieee.heat_index_multiplier (temp i) (humidity i))
  && same_value (patient_load i) (Ieee.patient_load i).

Definition agree_on_count (n : Z) : bool :=
  same_value (int_mul_float n (float_literal 0.65)) (Ieee.onsite_load n)
  && same_value (int_mul_float n (float_literal 0.15)) (Ieee.acs_load n).

Definition agree_on_score (ed : Z) : bool :=
  same_value (nedocs_raw ed) (Ieee.nedocs_raw ed).

Definition sample_inputs : list ScenarioInput :=
  flat_map (fun a =>
    flat_map (fun t =>
      flat_map (fun h =>
        mkScenarioInput a t h Stadium :: mkScenarioInput a t h FanZone :: nil)
        (10 :: 60 :: 65 :: 100 :: nil)%Z)
      (60 :: 85 :: 88 :: 98 :: 120 :: nil)%Z)
    (10000 :: 65000 :: 120000 :: 150000 :: nil)%Z.

(** Totals at the edge of what doubles hold: the first integer that
    loses its last digit, the last one that converts and the first one
    that does not. *)
Definition extreme_counts : list Z :=
  (2 ^ 53 + 1 :: 10 ^ 17 + 7 :: 2 ^ 1024 - 2 ^ 970 - 1 :: 2 ^ 1024 - 2 ^ 970
   :: 2 ^ 1024 :: nil)%Z.

(** The uncapped score of [ed] is the exact floor of [80 + 0.75 ed]. *)
Definition score_exact (ed : Z) : bool :=
  match nedocs_uncapped ed with
  | Some s => (s =? (320 + 3 * ed) / 4)%Z
  | None => false
  end.

(* ================================================================= *)
(** ** Line 35 in exact arithmetic *)

(** Line 29 and the product of line 35 as the formulas read when no
    operation rounds: the decimals are the decimals written, and the
    products and sums are those of the rationals. *)
Definition exact_env_multiplier (temp humidity : Z) : Q :=
  1 + Qmax 0 (inject_Z (temp - 85) * 0.05)
    + Qmax 0 (inject_Z (humidity - 60) * 0.01).

Definition exact_load (i : ScenarioInput) : Q :=
  (inject_Z (attendance i) / 10000) * 15
  * exact_env_multiplier (temp i) (humidity i)
  * venue_multiplier (venue_type i).

Definition exact_total_patients (i : ScenarioInput) : Z :=
  Qfloor (exact_load i).

(** [x^k]. *)
Fixpoint qpow (x : Q) (k : nat) : Q :=
  match k with
  | O => 1
  | S k => x * qpow x k
  end.

(** [x] is what [k] roundings, each of relative error at most [2^-53],
    can make of the exact non-negative value [e]. *)
Definition near (k : nat) (x e : Q) : Prop :=
  0 <= e /\
  e * qpow (1 - Binary64.pow2 (- Binary64.prec)) k <= x /\
  x <= e * qpow (1 + Binary64.pow2 (- Binary64.prec)) k.

(* ================================================================= *)
(** ** Beyond the sliders, and the two charts *)

(** A range far wider than the sliders', with any venue label. *)
Definition in_wide_range (i : ScenarioInput) : Prop :=
  (0 <= attendance i <= 10 ^ 6)%Z /\
  (- 10 ^ 6 <= temp i <= 10 ^ 6)%Z /\
  (- 10 ^ 6 <= humidity i <= 10 ^ 6)%Z.

(** Lines 39-41 as one step: the transports a total leaves. *)
Definition transports_of_total (total_patients : Z) : option Z :=
  onsite <- onsite_treat total_patients ;;
  acs <- acs_telehealth total_patients ;;
  Some (ed_transports total_patients onsite acs).

(** The corners of the wide range. *)
Definition widest_low : ScenarioInput :=
  mkScenarioInput 0 (- 10 ^ 6) (- 10 ^ 6) Stadium.
Definition widest_high : ScenarioInput :=
  mkScenarioInput (10 ^ 6) (10 ^ 6) (10 ^ 6) FanZone.

(** Line 15: the attendance slider moves in steps of 5000. *)
Definition on_attendance_step (i : ScenarioInput) : Prop :=
  (attendance i mod 5000 = 0)%Z.

(** At the reference weather the slider position [5000 k] gives exactly
    15 patients per 10,000 in the stadium and 30 in the fan zone. *)
Definition rate_exact (k : Z) : bool :=
  match total_patients (mkScenarioInput (5000 * k) 85 60 Stadium),
        total_patients (mkScenarioInput (5000 * k) 85 60 FanZone) with
  | Some n, Some m =>
      ((n =? 15 * (5000 * k) / 10000) && (m =? 30 * (5000 * k) / 10000))%Z
  | _, _ => false
  end.

(** [str(n)] on an int: decimal digits, a minus sign when negative. *)
Definition py_str (n : Z) : string := NilZero.string_of_int (Z.to_int n).

(** Lines 82-103: what the gauge is given.  The axis range is
    [[None, 200]]; only its upper end is fixed. *)
Record GaugeIndicator : Type := mkGaugeIndicator {
  gauge_value : Z;
  gauge_axis_max : Z;
  gauge_steps : list (Z * Z * string);
  gauge_threshold : Z
}.

Definition fig_gauge (nedocs_score : Z) : GaugeIndicator :=
  mkGaugeIndicator nedocs_score 200
    ((0, 80, "green") :: (80, 100, "yellow") :: (100, 140, "orange")
     :: (140, 200, "red") :: nil)%Z
    CRITICAL_NEDOCS_THRESHOLD.

(** A colour band holds a value when the value lies within its range. *)
Definition band_holds (v : Z) (band : Z * Z * string) : Prop :=
  (fst (fst band) <= v <= snd (fst band))%Z.

(** Lines 110-120: what the waterfall is given. *)
Record WaterfallTrace : Type := mkWaterfallTrace {
  wf_measure : list string;
  wf_x : list string;
  wf_text : list string;
  wf_y : list Z
}.

Definition fig_waterfall (total_patients onsite_treat acs_telehealth ed_transports : Z)
  : WaterfallTrace :=
  mkWaterfallTrace
    ("absolute" :: "relative" :: "relative" :: "relative" :: nil)
    ("Total Generated" :: "On-Site (STIP)" :: "ACS / Telehealth"
     :: "ED Transports" :: nil)
    (py_str total_patients :: ("-" ++ py_str onsite_treat)
     :: ("-" ++ py_str acs_telehealth) :: py_str ed_transports :: nil)
    (total_patients :: (- onsite_treat)%Z :: (- acs_telehealth)%Z
     :: ed_transports :: nil).

(* ================================================================= *)
(** ** Rounding: binades, nearest-even, monotonicity, relative error *)

Module Binary64Facts.
Import Binary64.

Lemma pow2_pos (z : Z) : 0 < pow2 z.
Proof. apply Qpower_0_lt. reflexivity. Qed.

Lemma pow2_add (a b : Z) : pow2 (a + b) == pow2 a * pow2 b.
Proof. apply Qpower_plus. discriminate. Qed.

Lemma pow2_le (a b : Z) : (a <= b)%Z -> pow2 a <= pow2 b.
Proof. intros H. apply Qpower_le_compat_l; [exact H | discriminate]. Qed.

Lemma pow2_lt (a b : Z) : (a < b)%Z -> pow2 a < pow2 b.
Proof. intros H. apply Qpower_lt_compat_l; [exact H | reflexivity]. Qed.

Lemma pow2_lt_inv (a b : Z) : pow2 a < pow2 b -> (a < b)%Z.
Proof. intros H. apply (Qpower_lt_compat_l_inv 2); [exact H | reflexivity]. Qed.

Lemma pow2_inject (n : Z) : (0 <= n)%Z -> pow2 n == inject_Z (2 ^ n).
Proof. intros H. unfold pow2. rewrite Zpower_Qpower by exact H. reflexivity. Qed.

Lemma pow2_sub (a b : Z) : pow2 (a - b) == pow2 a / pow2 b.
Proof. apply Qpower_minus. discriminate. Qed.

Lemma ilog2_spec (x : Q) :
  0 < x -> pow2 (ilog2 x) <= x /\ x < pow2 (ilog2 x + 1).
Proof.
  intros Hx. destruct x as [p q]. unfold ilog2. cbn [Qnum Qden].
  assert (Hp : (0 < p)%Z) by (unfold Qlt in Hx; cbn in Hx; lia).
  set (lp := Z.log2 p). set (lq := Z.log2 (Zpos q)).
  assert (Hlp : (2 ^ lp <= p < 2 ^ (lp + 1))%Z).
  { replace (lp + 1)%Z with (Z.succ lp) by lia. apply Z.log2_spec. exact Hp. }
  assert (Hlq : (2 ^ lq <= Zpos q < 2 ^ (lq + 1))%Z).
  { replace (lq + 1)%Z with (Z.succ lq) by lia. apply Z.log2_spec. lia. }
  assert (Hlp0 : (0 <= lp)%Z) by apply Z.log2_nonneg.
  assert (Hlq0 : (0 <= lq)%Z) by apply Z.log2_nonneg.
  assert (Hx' : p # q == inject_Z p / inject_Z (Zpos q)).
  { rewrite Qmake_Qdiv. reflexivity. }
  assert (Hq0 : 0 < inject_Z (Zpos q)) by (unfold Qlt; cbn; lia).
  (* the two a-priori bounds *)
  assert (Hup : p # q < pow2 (lp - lq + 1)).
  { replace (lp - lq + 1)%Z with ((lp + 1) - lq)%Z by lia.
    rewrite pow2_sub, !pow2_inject by lia. rewrite Hx'.
    apply Qlt_shift_div_l.
    - rewrite <- (pow2_inject lq) by lia. apply pow2_pos.
    - unfold Qdiv. rewrite <- Qmult_assoc, (Qmult_comm (/ _)), Qmult_assoc.
      apply Qlt_shift_div_r; [exact Hq0|].
      rewrite <- !inject_Z_mult, <- Zlt_Qlt.
      assert (0 < 2 ^ lq)%Z by (apply Z.pow_pos_nonneg; lia). nia. }
  assert (Hlo : pow2 (lp - lq - 1) <= p # q).
  { replace (lp - lq - 1)%Z with (lp - (lq + 1))%Z by lia.
    rewrite pow2_sub, !pow2_inject by lia. rewrite Hx'.
    apply Qle_shift_div_r.
    - rewrite <- (pow2_inject (lq + 1)) by lia. apply pow2_pos.
    - unfold Qdiv. rewrite <- Qmult_assoc, (Qmult_comm (/ _)), Qmult_assoc.
      apply Qle_shift_div_l; [exact Hq0|].
      rewrite <- !inject_Z_mult, <- Zle_Qle.
      assert (0 < 2 ^ lp)%Z by (apply Z.pow_pos_nonneg; lia). nia. }
  destruct (Qle_bool (pow2 (lp - lq)) (p # q)) eqn:E.
  - apply Qle_bool_iff in E. split; [exact E | exact Hup].
  - split; [exact Hlo|].
    replace (lp - lq - 1 + 1)%Z with (lp - lq)%Z by lia.
    apply Qnot_le_lt. intros C. apply Qle_bool_iff in C. congruence.
Qed.

End Binary64Facts.

Module RneFacts.
Import Binary64.

Lemma rne_cases (x : Q) :
  (rne x = Qfloor x /\ x - inject_Z (Qfloor x) <= 1 # 2) \/
  (rne x = (Qfloor x + 1)%Z /\ 1 # 2 <= x - inject_Z (Qfloor x)).
Proof.
  unfold rne. set (f := Qfloor x).
  destruct (Qcompare (x - inject_Z f) (1 # 2)) eqn:E.
  - apply Qeq_alt in E. destruct (Z.even f).
    + left. split; [reflexivity|]. rewrite E. apply Qle_refl.
    + right. split; [reflexivity|]. rewrite E. apply Qle_refl.
  - apply Qlt_alt in E. left. split; [reflexivity|]. apply Qlt_le_weak, E.
  - apply Qgt_alt in E. right. split; [reflexivity|]. apply Qlt_le_weak, E.
Qed.

Lemma rne_Z (n : Z) : rne (inject_Z n) = n.
Proof.
  unfold rne. rewrite Qfloor_Z.
  replace (Qcompare (inject_Z n - inject_Z n) (1 # 2)) with Lt; [reflexivity|].
  symmetry. apply Qlt_alt. ring_simplify (inject_Z n - inject_Z n). reflexivity.
Qed.

Lemma rne_near (x : Q) :
  x - (1 # 2) <= inject_Z (rne x) /\ inject_Z (rne x) <= x + (1 # 2).
Proof.
  pose proof (Qfloor_le x) as Hlo. pose proof (Qlt_floor x) as Hhi.
  rewrite inject_Z_plus in Hhi. change (inject_Z 1) with 1 in Hhi.
  destruct (rne_cases x) as [[-> H] | [-> H]].
  - split; lra.
  - rewrite inject_Z_plus. change (inject_Z 1) with 1. split; lra.
Qed.

Lemma rne_mono (x y : Q) : x <= y -> (rne x <= rne y)%Z.
Proof.
  intros Hxy.
  pose proof (Qfloor_resp_le _ _ Hxy) as Hf.
  destruct (Z.eq_dec (Qfloor x) (Qfloor y)) as [Heq | Hne].
  - unfold rne. rewrite <- Heq.
    set (f := Qfloor x).
    assert (Hr : x - inject_Z f <= y - inject_Z f) by lra.
    destruct (Qcompare (x - inject_Z f) (1 # 2)) eqn:Ex;
      destruct (Qcompare (y - inject_Z f) (1 # 2)) eqn:Ey;
      first [apply Qeq_alt in Ex | apply Qlt_alt in Ex | apply Qgt_alt in Ex];
      first [apply Qeq_alt in Ey | apply Qlt_alt in Ey | apply Qgt_alt in Ey];
      destruct (Z.even f); try lia; exfalso; lra.
  - assert (Hlt : (Qfloor x + 1 <= Qfloor y)%Z) by lia.
    destruct (rne_cases x) as [[-> _] | [-> _]];
      destruct (rne_cases y) as [[-> _] | [-> _]]; lia.
Qed.

End RneFacts.

Module RoundFacts.
Import Binary64 Binary64Facts RneFacts.

Lemma scaled_bounds (x : Q) :
  0 < x ->
  let s := (ilog2 x - (prec - 1))%Z in
  inject_Z (2 ^ 52) <= x / pow2 s /\ x / pow2 s <= inject_Z (2 ^ 53).
Proof.
  intros Hx s. destruct (ilog2_spec x Hx) as [Hlo Hhi].
  pose proof (pow2_pos s) as Hs.
  assert (E1 : pow2 (ilog2 x) == inject_Z (2 ^ 52) * pow2 s).
  { rewrite <- pow2_inject by lia. rewrite <- pow2_add.
    unfold s, prec. replace (52 + (ilog2 x - (53 - 1)))%Z with (ilog2 x) by lia.
    reflexivity. }
  assert (E2 : pow2 (ilog2 x + 1) == inject_Z (2 ^ 53) * pow2 s).
  { rewrite <- pow2_inject by lia. rewrite <- pow2_add.
    unfold s, prec. replace (53 + (ilog2 x - (53 - 1)))%Z with (ilog2 x + 1)%Z by lia.
    reflexivity. }
  split.
  - apply Qle_shift_div_l; [exact Hs|]. rewrite <- E1. exact Hlo.
  - apply Qle_shift_div_r; [exact Hs|]. rewrite <- E2. apply Qlt_le_weak, Hhi.
Qed.

Lemma round_pos_bounds (x : Q) :
  0 < x ->
  pow2 (ilog2 x) <= round_pos x /\ round_pos x <= pow2 (ilog2 x + 1).
Proof.
  intros Hx. unfold round_pos. set (s := (ilog2 x - (prec - 1))%Z).
  destruct (scaled_bounds x Hx) as [Hlo Hhi]. fold s in Hlo, Hhi.
  pose proof (pow2_pos s) as Hs.
  apply rne_mono in Hlo. apply rne_mono in Hhi. rewrite rne_Z in Hlo, Hhi.
  assert (E1 : pow2 (ilog2 x) == inject_Z (2 ^ 52) * pow2 s).
  { rewrite <- pow2_inject by lia. rewrite <- pow2_add.
    unfold s, prec. replace (52 + (ilog2 x - (53 - 1)))%Z with (ilog2 x) by lia.
    reflexivity. }
  assert (E2 : pow2 (ilog2 x + 1) == inject_Z (2 ^ 53) * pow2 s).
  { rewrite <- pow2_inject by lia. rewrite <- pow2_add.
    unfold s, prec. replace (53 + (ilog2 x - (53 - 1)))%Z with (ilog2 x + 1)%Z by lia.
    reflexivity. }
  rewrite E1, E2. split; apply Qmult_le_compat_r;
    try (apply Qlt_le_weak, Hs); rewrite <- Zle_Qle; assumption.
Qed.

Lemma round_pos_pos (x : Q) : 0 < x -> 0 < round_pos x.
Proof.
  intros Hx. destruct (round_pos_bounds x Hx) as [H _].
  eapply Qlt_le_trans; [apply pow2_pos | exact H].
Qed.

Lemma ilog2_mono (x y : Q) : 0 < x -> x <= y -> (ilog2 x <= ilog2 y)%Z.
Proof.
  intros Hx Hxy.
  assert (Hy : 0 < y) by (eapply Qlt_le_trans; eassumption).
  destruct (ilog2_spec x Hx) as [Hlo _]. destruct (ilog2_spec y Hy) as [_ Hhi].
  assert (H : pow2 (ilog2 x) < pow2 (ilog2 y + 1)).
  { eapply Qle_lt_trans; [exact Hlo|]. eapply Qle_lt_trans; eassumption. }
  apply pow2_lt_inv in H. lia.
Qed.

Lemma round_pos_mono (x y : Q) :
  0 < x -> x <= y -> round_pos x <= round_pos y.
Proof.
  intros Hx Hxy.
  assert (Hy : 0 < y) by (eapply Qlt_le_trans; eassumption).
  pose proof (ilog2_mono x y Hx Hxy) as He.
  destruct (Z.eq_dec (ilog2 x) (ilog2 y)) as [Heq | Hne].
  - unfold round_pos. rewrite Heq. set (s := (ilog2 y - (prec - 1))%Z).
    pose proof (pow2_pos s) as Hs.
    apply Qmult_le_compat_r; [|apply Qlt_le_weak, Hs].
    rewrite <- Zle_Qle. apply rne_mono.
    unfold Qdiv. apply Qmult_le_compat_r; [exact Hxy|].
    apply Qlt_le_weak, Qinv_lt_0_compat, Hs.
  - destruct (round_pos_bounds x Hx) as [_ Hux].
    destruct (round_pos_bounds y Hy) as [Hly _].
    eapply Qle_trans; [exact Hux|]. eapply Qle_trans; [|exact Hly].
    apply pow2_le. lia.
Qed.

(** The absolute error is at most half a unit in the last place. *)
Lemma round_pos_near (x : Q) :
  0 < x ->
  x - pow2 (ilog2 x - prec) <= round_pos x /\
  round_pos x <= x + pow2 (ilog2 x - prec).
Proof.
  intros Hx. unfold round_pos. set (s := (ilog2 x - (prec - 1))%Z).
  pose proof (pow2_pos s) as Hs.
  assert (E : pow2 (ilog2 x - prec) == (1 # 2) * pow2 s).
  { replace (ilog2 x - prec)%Z with ((-1) + s)%Z by (unfold s; lia).
    rewrite pow2_add. reflexivity. }
  assert (Ex : x == (x / pow2 s) * pow2 s).
  { field. intros C. rewrite C in Hs. discriminate. }
  destruct (rne_near (x / pow2 s)) as [Hlo Hhi].
  rewrite E. set (y := x / pow2 s) in *. set (r := inject_Z (rne y)) in *.
  split.
  - rewrite Ex at 1.
    setoid_replace (y * pow2 s - (1 # 2) * pow2 s) with ((y - (1 # 2)) * pow2 s) by ring.
    apply Qmult_le_compat_r; [exact Hlo | apply Qlt_le_weak, Hs].
  - rewrite Ex at 1.
    setoid_replace (y * pow2 s + (1 # 2) * pow2 s) with ((y + (1 # 2)) * pow2 s) by ring.
    apply Qmult_le_compat_r; [exact Hhi | apply Qlt_le_weak, Hs].
Qed.

Lemma round_unfold (x : Q) :
  round x == match Qcompare x 0 with
             | Eq => 0
             | Gt => round_pos x
             | Lt => - round_pos (- x)
             end.
Proof. unfold round. apply Qred_correct. Qed.

Lemma round_of_pos (x : Q) : 0 < x -> round x == round_pos x.
Proof.
  intros Hx. rewrite round_unfold.
  replace (Qcompare x 0) with Gt by (symmetry; apply Qgt_alt; exact Hx).
  reflexivity.
Qed.

Lemma round_of_neg (x : Q) : x < 0 -> round x == - round_pos (- x).
Proof.
  intros Hx. rewrite round_unfold.
  replace (Qcompare x 0) with Lt by (symmetry; apply Qlt_alt; exact Hx).
  reflexivity.
Qed.

Lemma round_of_zero (x : Q) : x == 0 -> round x == 0.
Proof.
  intros Hx. rewrite round_unfold.
  replace (Qcompare x 0) with Eq by (symmetry; apply Qeq_alt; exact Hx).
  reflexivity.
Qed.

Lemma round_mono (x y : Q) : x <= y -> round x <= round y.
Proof.
  intros Hxy.
  destruct (Q_dec x 0) as [[Hx | Hx] | Hx]; destruct (Q_dec y 0) as [[Hy | Hy] | Hy].
  - rewrite (round_of_neg x Hx), (round_of_neg y Hy).
    apply Qopp_le_compat. apply round_pos_mono; lra.
  - rewrite (round_of_neg x Hx), (round_of_pos y Hy).
    pose proof (round_pos_pos (- x)). pose proof (round_pos_pos y). lra.
  - rewrite (round_of_neg x Hx), (round_of_zero y Hy).
    pose proof (round_pos_pos (- x)). lra.
  - exfalso. lra.
  - rewrite (round_of_pos x Hx), (round_of_pos y Hy). apply round_pos_mono; assumption.
  - exfalso. lra.
  - exfalso. lra.
  - rewrite (round_of_zero x Hx), (round_of_pos y Hy).
    pose proof (round_pos_pos y). lra.
  - rewrite (round_of_zero x Hx), (round_of_zero y Hy). apply Qle_refl.
Qed.

(** [round] does not depend on how its argument is written. *)
Lemma round_ext (x y : Q) : x == y -> round x = round y.
Proof.
  intros H. unfold round at 1 2. apply Qred_complete.
  rewrite <- !round_unfold.
  apply Qle_antisym; apply round_mono; rewrite H; apply Qle_refl.
Qed.

Lemma round_nonneg (x : Q) : 0 <= x -> 0 <= round x.
Proof. intros H. apply (round_mono 0 x) in H. exact H. Qed.

Lemma round_nonpos (x : Q) : x <= 0 -> round x <= 0.
Proof. intros H. apply (round_mono x 0) in H. exact H. Qed.

Lemma round_pos_lt (x : Q) : 0 < x -> 0 < round x.
Proof. intros H. rewrite (round_of_pos x H). apply round_pos_pos, H. Qed.

(** Relative error: at most [2^-53] of the exact value. *)
Lemma round_rel (x : Q) :
  0 <= x ->
  x * (1 - pow2 (- prec)) <= round x /\ round x <= x * (1 + pow2 (- prec)).
Proof.
  intros Hx0. destruct (Qle_lt_or_eq _ _ Hx0) as [Hx | Hx].
  - rewrite (round_of_pos x Hx).
    destruct (round_pos_near x Hx) as [Hlo Hhi].
    destruct (ilog2_spec x Hx) as [Hb _].
    assert (E : pow2 (ilog2 x - prec) == pow2 (ilog2 x) * pow2 (- prec)).
    { rewrite <- pow2_add. replace (ilog2 x + - prec)%Z with (ilog2 x - prec)%Z by lia.
      reflexivity. }
    pose proof (pow2_pos (- prec)) as Hu.
    assert (Hle : pow2 (ilog2 x - prec) <= x * pow2 (- prec)).
    { rewrite E. apply Qmult_le_compat_r; [exact Hb | apply Qlt_le_weak, Hu]. }
    split; lra.
  - rewrite (round_of_zero x) by (symmetry; exact Hx).
    rewrite <- Hx. split; lra.
Qed.

End RoundFacts.

Module RoundedFacts.
Import Binary64 Binary64Facts RoundFacts.

Lemma Qlt_bool_iff (x y : Q) : Qlt_bool x y = true <-> x < y.
Proof.
  unfold Qlt_bool. rewrite negb_true_iff. split.
  - intros H. apply Qnot_le_lt. intros C. apply Qle_bool_iff in C. congruence.
  - intros H. destruct (Qle_bool y x) eqn:E; [|reflexivity].
    apply Qle_bool_iff in E. exfalso. lra.
Qed.

Lemma finite_Some (x y : Q) :
  finite x = Some y <-> y = x /\ - pow2 emax < x < pow2 emax.
Proof.
  unfold finite. destruct (Qlt_bool (Qabs x) (pow2 emax)) eqn:E.
  - apply Qlt_bool_iff, Qabs_Qlt_condition in E. split.
    + intros H. injection H as <-. split; [reflexivity | exact E].
    + intros [-> _]. reflexivity.
  - split; [discriminate|]. intros [_ H].
    apply Qabs_Qlt_condition, Qlt_bool_iff in H. congruence.
Qed.

Lemma rounded_Some (x y : Q) :
  rounded x = Some y <-> y = round x /\ - pow2 emax < round x < pow2 emax.
Proof. unfold rounded. apply finite_Some. Qed.

Lemma rounded_ext (x y : Q) : x == y -> rounded x = rounded y.
Proof. intros H. unfold rounded. rewrite (round_ext x y H). reflexivity. Qed.

Lemma rounded_mono (x y a b : Q) :
  x <= y -> rounded x = Some a -> rounded y = Some b -> a <= b.
Proof.
  intros Hxy Ha Hb. apply rounded_Some in Ha, Hb.
  destruct Ha as [-> _], Hb as [-> _]. apply round_mono, Hxy.
Qed.

(** An exact result between two that are delivered is delivered, and in
    between. *)
Lemma rounded_between (x1 x x2 a b : Q) :
  x1 <= x -> x <= x2 -> rounded x1 = Some a -> rounded x2 = Some b ->
  exists c, rounded x = Some c /\ a <= c /\ c <= b.
Proof.
  intros H1 H2 Ha Hb. apply rounded_Some in Ha, Hb.
  destruct Ha as [-> [Ha _]], Hb as [-> [_ Hb]].
  pose proof (round_mono _ _ H1). pose proof (round_mono _ _ H2).
  exists (round x). split; [|split; assumption].
  apply rounded_Some. split; [reflexivity|]. split; lra.
Qed.

Lemma rounded_rel (x a : Q) :
  0 <= x -> rounded x = Some a ->
  x * (1 - pow2 (- prec)) <= a /\ a <= x * (1 + pow2 (- prec)).
Proof.
  intros Hx Ha. apply rounded_Some in Ha. destruct Ha as [-> _].
  apply round_rel, Hx.
Qed.

Lemma rounded_nonneg (x a : Q) : 0 <= x -> rounded x = Some a -> 0 <= a.
Proof.
  intros Hx Ha. apply rounded_Some in Ha. destruct Ha as [-> _].
  apply round_nonneg, Hx.
Qed.

Lemma rounded_nonpos (x a : Q) : x <= 0 -> rounded x = Some a -> a <= 0.
Proof.
  intros Hx Ha. apply rounded_Some in Ha. destruct Ha as [-> _].
  apply round_nonpos, Hx.
Qed.

End RoundedFacts.

Module PyFacts.
Import Binary64 Binary64Facts RoundFacts RoundedFacts.

Lemma bind_Some {A B : Type} (m : option A) (k : A -> option B) (b : B) :
  bind m k = Some b <-> exists a, m = Some a /\ k a = Some b.
Proof.
  destruct m as [a|]; cbn; split.
  - intros H. exists a. auto.
  - intros [a' [[= <-] H]]. exact H.
  - discriminate.
  - intros [a' [[=] _]].
Qed.

Lemma int_of_float_nonneg (x : Q) : 0 <= x -> int_of_float x = Qfloor x.
Proof.
  destruct x as [p q]. unfold int_of_float, Qfloor, Qle. cbn. intros H.
  apply Z.quot_div_nonneg; lia.
Qed.

Lemma int_of_float_nonpos (x : Q) : x <= 0 -> int_of_float x = Qceiling x.
Proof.
  destruct x as [p q]. unfold int_of_float, Qceiling, Qfloor, Qle. cbn. intros H.
  replace p with (- - p)%Z at 1 by lia.
  rewrite Z.quot_opp_l by lia. f_equal. apply Z.quot_div_nonneg; lia.
Qed.

Lemma int_of_float_mono (x y : Q) : x <= y -> (int_of_float x <= int_of_float y)%Z.
Proof.
  intros Hxy. destruct (Qlt_le_dec x 0) as [Hx | Hx]; destruct (Qlt_le_dec y 0) as [Hy | Hy].
  - rewrite !int_of_float_nonpos by lra. apply Qceiling_resp_le, Hxy.
  - rewrite (int_of_float_nonpos x), (int_of_float_nonneg y) by lra.
    assert (Qceiling x <= 0)%Z.
    { change 0%Z with (Qceiling 0). apply Qceiling_resp_le. lra. }
    assert (0 <= Qfloor y)%Z.
    { change 0%Z with (Qfloor 0). apply Qfloor_resp_le. lra. }
    lia.
  - exfalso. lra.
  - rewrite !int_of_float_nonneg by lra. apply Qfloor_resp_le, Hxy.
Qed.

Lemma max0_nonneg (x : Q) : 0 <= max0 x.
Proof.
  unfold max0. destruct (Qlt_bool 0 x) eqn:E; [|apply Qle_refl].
  apply Qlt_bool_iff in E. lra.
Qed.

Lemma max0_mono (x y : Q) : x <= y -> max0 x <= max0 y.
Proof.
  intros H. unfold max0.
  destruct (Qlt_bool 0 x) eqn:Ex; destruct (Qlt_bool 0 y) eqn:Ey;
    try apply Qlt_bool_iff in Ex; try apply Qlt_bool_iff in Ey; try lra.
  exfalso. assert (C : 0 < y) by lra. apply Qlt_bool_iff in C. congruence.
Qed.

Lemma max0_nonpos (x : Q) : x <= 0 -> max0 x = 0.
Proof.
  intros H. unfold max0. destruct (Qlt_bool 0 x) eqn:E; [|reflexivity].
  apply Qlt_bool_iff in E. exfalso. lra.
Qed.

Lemma max0_le (x : Q) : x <= max0 x.
Proof.
  unfold max0. destruct (Qlt_bool 0 x) eqn:E; [apply Qle_refl|].
  destruct (Qlt_le_dec 0 x) as [C|C]; [|exact C].
  apply Qlt_bool_iff in C. congruence.
Qed.

End PyFacts.

Module ScriptFacts.
Import Binary64 Binary64Facts RoundFacts RoundedFacts PyFacts.

Ltac inv_bind H :=
  let x := fresh "x" in
  let Hx := fresh "E" in
  apply bind_Some in H; destruct H as (x & Hx & H).

Lemma float_of_int_mono (n1 n2 : Z) (a b : Q) :
  (n1 <= n2)%Z -> float_of_int n1 = Some a -> float_of_int n2 = Some b -> a <= b.
Proof.
  intros H. unfold float_of_int. apply rounded_mono. rewrite <- Zle_Qle. exact H.
Qed.

Lemma float_of_int_between (n1 n n2 : Z) (a b : Q) :
  (n1 <= n <= n2)%Z -> float_of_int n1 = Some a -> float_of_int n2 = Some b ->
  exists c, float_of_int n = Some c /\ a <= c /\ c <= b.
Proof.
  intros [H1 H2]. unfold float_of_int.
  apply rounded_between; rewrite <- Zle_Qle; assumption.
Qed.

Lemma float_of_int_nonneg (n : Z) (a : Q) :
  (0 <= n)%Z -> float_of_int n = Some a -> 0 <= a.
Proof.
  intros H. unfold float_of_int. apply rounded_nonneg.
  change 0 with (inject_Z 0). rewrite <- Zle_Qle. exact H.
Qed.

Lemma float_of_int_nonpos (n : Z) (a : Q) :
  (n <= 0)%Z -> float_of_int n = Some a -> a <= 0.
Proof.
  intros H. unfold float_of_int. apply rounded_nonpos.
  change 0 with (inject_Z 0). rewrite <- Zle_Qle. exact H.
Qed.

Lemma float_mul_mono_l (x1 x2 c a b : Q) :
  0 <= c -> x1 <= x2 ->
  float_mul x1 c = Some a -> float_mul x2 c = Some b -> a <= b.
Proof.
  intros Hc H. unfold float_mul. apply rounded_mono.
  apply Qmult_le_compat_r; assumption.
Qed.

Lemma float_mul_between_l (x1 x x2 c a b : Q) :
  0 <= c -> x1 <= x -> x <= x2 ->
  float_mul x1 c = Some a -> float_mul x2 c = Some b ->
  exists r, float_mul x c = Some r /\ a <= r /\ r <= b.
Proof.
  intros Hc H1 H2. unfold float_mul.
  apply rounded_between; apply Qmult_le_compat_r; assumption.
Qed.

Lemma float_mul_between (x1 x x2 y1 y y2 a b : Q) :
  0 <= x1 -> x1 <= x -> x <= x2 -> 0 <= y1 -> y1 <= y -> y <= y2 ->
  float_mul x1 y1 = Some a -> float_mul x2 y2 = Some b ->
  exists r, float_mul x y = Some r /\ a <= r /\ r <= b.
Proof.
  intros Hx0 Hx1 Hx2 Hy0 Hy1 Hy2. unfold float_mul.
  apply rounded_between; apply Qmult_le_compat_nonneg; split; lra.
Qed.

Lemma float_mul_nonneg (x y a : Q) :
  0 <= x -> 0 <= y -> float_mul x y = Some a -> 0 <= a.
Proof.
  intros Hx Hy. unfold float_mul. apply rounded_nonneg.
  apply Qmult_le_0_compat; assumption.
Qed.

Lemma float_add_between (x1 x x2 y1 y y2 a b : Q) :
  x1 <= x -> x <= x2 -> y1 <= y -> y <= y2 ->
  float_add x1 y1 = Some a -> float_add x2 y2 = Some b ->
  exists r, float_add x y = Some r /\ a <= r /\ r <= b.
Proof.
  intros Hx1 Hx2 Hy1 Hy2. unfold float_add. apply rounded_between; lra.
Qed.

Lemma float_add_mono (x1 x2 y1 y2 a b : Q) :
  x1 <= x2 -> y1 <= y2 ->
  float_add x1 y1 = Some a -> float_add x2 y2 = Some b -> a <= b.
Proof.
  intros Hx Hy. unfold float_add. apply rounded_mono. lra.
Qed.

Lemma int_truediv_between (a1 a a2 b : Z) (q1 q2 : Q) :
  (0 < b)%Z -> (a1 <= a <= a2)%Z ->
  int_truediv a1 b = Some q1 -> int_truediv a2 b = Some q2 ->
  exists q, int_truediv a b = Some q /\ q1 <= q /\ q <= q2.
Proof.
  intros Hb [H1 H2]. unfold int_truediv.
  destruct (Z.eqb_spec b 0) as [C | _]; [lia|].
  assert (Hinv : 0 <= / inject_Z b).
  { apply Qlt_le_weak, Qinv_lt_0_compat. change 0 with (inject_Z 0).
    rewrite <- Zlt_Qlt. exact Hb. }
  apply rounded_between; unfold Qdiv; apply Qmult_le_compat_r;
    try exact Hinv; rewrite <- Zle_Qle; assumption.
Qed.

Lemma int_truediv_mono (a1 a2 b : Z) (q1 q2 : Q) :
  (0 < b)%Z -> (a1 <= a2)%Z ->
  int_truediv a1 b = Some q1 -> int_truediv a2 b = Some q2 -> q1 <= q2.
Proof.
  intros Hb H. unfold int_truediv.
  destruct (Z.eqb_spec b 0) as [C | _]; [lia|].
  assert (Hinv : 0 <= / inject_Z b).
  { apply Qlt_le_weak, Qinv_lt_0_compat. change 0 with (inject_Z 0).
    rewrite <- Zlt_Qlt. exact Hb. }
  apply rounded_mono. unfold Qdiv. apply Qmult_le_compat_r; [|exact Hinv].
  rewrite <- Zle_Qle. exact H.
Qed.

Lemma int_truediv_nonneg (a b : Z) (q : Q) :
  (0 < b)%Z -> (0 <= a)%Z -> int_truediv a b = Some q -> 0 <= q.
Proof.
  intros Hb Ha. unfold int_truediv.
  destruct (Z.eqb_spec b 0) as [C | _]; [lia|].
  apply rounded_nonneg. apply Qle_shift_div_l.
  - change 0 with (inject_Z 0). rewrite <- Zlt_Qlt. exact Hb.
  - rewrite Qmult_0_l. change 0 with (inject_Z 0). rewrite <- Zle_Qle. exact Ha.
Qed.

Lemma int_mul_float_between (n1 n n2 : Z) (c a b : Q) :
  0 <= c -> (n1 <= n <= n2)%Z ->
  int_mul_float n1 c = Some a -> int_mul_float n2 c = Some b ->
  exists r, int_mul_float n c = Some r /\ a <= r /\ r <= b.
Proof.
  intros Hc Hn Ha Hb. unfold int_mul_float in *.
  inv_bind Ha. inv_bind Hb.
  destruct (float_of_int_between n1 n n2 _ _ Hn E E0) as (y & Ey & Hy1 & Hy2).
  rewrite Ey. cbn [bind].
  apply (float_mul_between_l x y x0 c); assumption.
Qed.

Lemma int_mul_float_mono (n1 n2 : Z) (c a b : Q) :
  0 <= c -> (n1 <= n2)%Z ->
  int_mul_float n1 c = Some a -> int_mul_float n2 c = Some b -> a <= b.
Proof.
  intros Hc Hn Ha Hb. unfold int_mul_float in *.
  inv_bind Ha. inv_bind Hb.
  apply (float_mul_mono_l x x0 c); try assumption.
  apply (float_of_int_mono n1 n2); assumption.
Qed.

Lemma int_mul_float_nonneg (n : Z) (c a : Q) :
  0 <= c -> (0 <= n)%Z -> int_mul_float n c = Some a -> 0 <= a.
Proof.
  intros Hc Hn Ha. unfold int_mul_float in Ha. inv_bind Ha.
  apply (float_mul_nonneg x c); try assumption.
  apply (float_of_int_nonneg n); assumption.
Qed.

Lemma int_mul_float_nonpos (n : Z) (c a : Q) :
  0 <= c -> (n <= 0)%Z -> int_mul_float n c = Some a -> a <= 0.
Proof.
  intros Hc Hn Ha. unfold int_mul_float in Ha. inv_bind Ha.
  unfold float_mul in Ha. apply rounded_nonpos in Ha; [exact Ha|].
  pose proof (float_of_int_nonpos n x Hn E).
  setoid_replace (x * c) with (- ((- x) * c)) by ring.
  assert (0 <= (- x) * c) by (apply Qmult_le_0_compat; lra). lra.
Qed.

Lemma literal_0_05_nonneg : 0 <= float_literal 0.05.
Proof. vm_compute. discriminate. Qed.

Lemma literal_0_01_nonneg : 0 <= float_literal 0.01.
Proof. vm_compute. discriminate. Qed.

Lemma round_1 : round 1 = 1.
Proof. vm_compute. reflexivity. Qed.

(** *** Line 29 *)

Lemma heat_index_multiplier_ge_1 (t h : Z) (m : Q) :
  heat_index_multiplier t h = Some m -> 1 <= m.
Proof.
  unfold heat_index_multiplier. intros H.
  inv_bind H. inv_bind H. inv_bind H.
  unfold float_add in *. apply rounded_Some in E0, H.
  destruct E0 as [-> _], H as [-> _].
  pose proof (max0_nonneg x). pose proof (max0_nonneg x1).
  assert (H1 : 1 <= round (1 + max0 x)).
  { rewrite <- round_1 at 1. apply round_mono. lra. }
  rewrite <- round_1 at 1. apply round_mono. lra.
Qed.

Lemma heat_index_multiplier_between (t1 t t2 h1 h h2 : Z) (a b : Q) :
  (t1 <= t <= t2)%Z -> (h1 <= h <= h2)%Z ->
  heat_index_multiplier t1 h1 = Some a ->
  heat_index_multiplier t2 h2 = Some b ->
  exists m, heat_index_multiplier t h = Some m /\ a <= m /\ m <= b.
Proof.
  unfold heat_index_multiplier. intros Ht Hh Ha Hb.
  inv_bind Ha. inv_bind Ha. inv_bind Ha.
  inv_bind Hb. inv_bind Hb. inv_bind Hb.
  destruct (int_mul_float_between (t1 - 85) (t - 85) (t2 - 85) _ _ _
              literal_0_05_nonneg ltac:(lia) E E2) as (y & Ey & Hy1 & Hy2).
  rewrite Ey. cbn [bind].
  destruct (float_add_between 1 1 1 (max0 x) (max0 y) (max0 x2) _ _
              ltac:(lra) ltac:(lra) (max0_mono _ _ Hy1) (max0_mono _ _ Hy2) E0 E3)
    as (s & Es & Hs1 & Hs2).
  rewrite Es. cbn [bind].
  destruct (int_mul_float_between (h1 - 60) (h - 60) (h2 - 60) _ _ _
              literal_0_01_nonneg ltac:(lia) E1 E4) as (z & Ez & Hz1 & Hz2).
  rewrite Ez. cbn [bind].
  apply (float_add_between x0 s x3 (max0 x1) (max0 z) (max0 x4));
    try assumption; apply max0_mono; assumption.
Qed.

(** *** Lines 32-35 *)

Lemma venue_multiplier_cases (v : string) :
  venue_multiplier v = 1 \/ venue_multiplier v = 2.
Proof. unfold venue_multiplier. destruct (String.eqb v _); auto. Qed.

Lemma venue_multiplier_nonneg (v : string) : 0 <= venue_multiplier v.
Proof. destruct (venue_multiplier_cases v) as [-> | ->]; discriminate. Qed.

Lemma venue_multiplier_range (v : string) :
  1 <= venue_multiplier v /\ venue_multiplier v <= 2.
Proof. destruct (venue_multiplier_cases v) as [-> | ->]; split; discriminate. Qed.

Lemma base_ppr_nonneg : 0 <= base_ppr_per_10k.
Proof. discriminate. Qed.

Lemma patient_load_mono_attendance (a1 a2 t h : Z) (v : string) (p1 p2 : Q) :
  (a1 <= a2)%Z ->
  patient_load (mkScenarioInput a1 t h v) = Some p1 ->
  patient_load (mkScenarioInput a2 t h v) = Some p2 ->
  p1 <= p2.
Proof.
  unfold patient_load. cbn [attendance temp humidity venue_type].
  intros Ha H1 H2.
  apply bind_Some in H1. destruct H1 as (m & Hm & H1).
  apply bind_Some in H2. destruct H2 as (m' & Hm' & H2).
  rewrite Hm in Hm'. injection Hm' as <-.
  apply bind_Some in H1. destruct H1 as (q1 & Hq1 & H1).
  apply bind_Some in H2. destruct H2 as (q2 & Hq2 & H2).
  apply bind_Some in H1. destruct H1 as (b1 & Hb1 & H1).
  apply bind_Some in H2. destruct H2 as (b2 & Hb2 & H2).
  apply bind_Some in H1. destruct H1 as (c1 & Hc1 & H1).
  apply bind_Some in H2. destruct H2 as (c2 & Hc2 & H2).
  pose proof (heat_index_multiplier_ge_1 _ _ _ Hm) as Hm1.
  pose proof (int_truediv_mono a1 a2 10000 q1 q2 ltac:(lia) Ha Hq1 Hq2) as Hq.
  pose proof (float_mul_mono_l _ _ _ _ _ base_ppr_nonneg Hq Hb1 Hb2) as Hb.
  pose proof (float_mul_mono_l _ _ m _ _ ltac:(lra) Hb Hc1 Hc2) as Hc.
  exact (float_mul_mono_l _ _ _ _ _ (venue_multiplier_nonneg v) Hc H1 H2).
Qed.

Lemma patient_load_nonneg (i : ScenarioInput) (p : Q) :
  (0 <= attendance i)%Z -> patient_load i = Some p -> 0 <= p.
Proof.
  unfold patient_load. intros Ha H.
  apply bind_Some in H. destruct H as (m & Hm & H).
  apply bind_Some in H. destruct H as (q & Hq & H).
  apply bind_Some in H. destruct H as (b & Hb & H).
  apply bind_Some in H. destruct H as (c & Hc & H).
  pose proof (heat_index_multiplier_ge_1 _ _ _ Hm) as Hm1.
  pose proof (int_truediv_nonneg _ 10000 _ ltac:(lia) Ha Hq) as Hq0.
  pose proof (float_mul_nonneg _ _ _ Hq0 base_ppr_nonneg Hb) as Hb0.
  pose proof (float_mul_nonneg b m c Hb0 ltac:(lra) Hc) as Hc0.
  exact (float_mul_nonneg _ _ _ Hc0 (venue_multiplier_nonneg _) H).
Qed.

(** An input that lies, component by component, between two inputs the
    script evaluates is evaluated too, to a load in between. *)
Lemma patient_load_between (i1 i i2 : ScenarioInput) (p1 p2 : Q) :
  (0 <= attendance i1)%Z ->
  (attendance i1 <= attendance i <= attendance i2)%Z ->
  (temp i1 <= temp i <= temp i2)%Z ->
  (humidity i1 <= humidity i <= humidity i2)%Z ->
  venue_multiplier (venue_type i1) <= venue_multiplier (venue_type i) ->
  venue_multiplier (venue_type i) <= venue_multiplier (venue_type i2) ->
  patient_load i1 = Some p1 -> patient_load i2 = Some p2 ->
  exists p, patient_load i = Some p /\ p1 <= p /\ p <= p2.
Proof.
  unfold patient_load. intros Ha0 Ha Ht Hh Hv1 Hv2 H1 H2.
  apply bind_Some in H1. destruct H1 as (m1 & Hm1 & H1).
  apply bind_Some in H2. destruct H2 as (m2 & Hm2 & H2).
  apply bind_Some in H1. destruct H1 as (q1 & Hq1 & H1).
  apply bind_Some in H2. destruct H2 as (q2 & Hq2 & H2).
  apply bind_Some in H1. destruct H1 as (b1 & Hb1 & H1).
  apply bind_Some in H2. destruct H2 as (b2 & Hb2 & H2).
  apply bind_Some in H1. destruct H1 as (c1 & Hc1 & H1).
  apply bind_Some in H2. destruct H2 as (c2 & Hc2 & H2).
  destruct (heat_index_multiplier_between _ _ _ _ _ _ _ _ Ht Hh Hm1 Hm2)
    as (m & Hm & Hml & Hmu).
  rewrite Hm. cbn [bind].
  destruct (int_truediv_between _ _ _ 10000 _ _ ltac:(lia) Ha Hq1 Hq2)
    as (q & Hq & Hql & Hqu).
  rewrite Hq. cbn [bind].
  pose proof (int_truediv_nonneg _ 10000 _ ltac:(lia) Ha0 Hq1) as Hq0.
  destruct (float_mul_between_l _ _ _ _ _ _ base_ppr_nonneg Hql Hqu Hb1 Hb2)
    as (b & Hb & Hbl & Hbu).
  rewrite Hb. cbn [bind].
  pose proof (float_mul_nonneg _ _ _ Hq0 base_ppr_nonneg Hb1) as Hb0.
  pose proof (heat_index_multiplier_ge_1 _ _ _ Hm1) as Hm0.
  destruct (float_mul_between b1 b b2 m1 m m2 _ _
              Hb0 Hbl Hbu ltac:(lra) Hml Hmu Hc1 Hc2)
    as (c & Hc & Hcl & Hcu).
  rewrite Hc. cbn [bind].
  pose proof (float_mul_nonneg b1 m1 c1 Hb0 ltac:(lra) Hc1) as Hc0.
  exact (float_mul_between c1 c c2 _ _ _ _ _
           Hc0 Hcl Hcu (venue_multiplier_nonneg _) Hv1 Hv2 H1 H2).
Qed.


Lemma patient_load_lowest : patient_load lowest_input = Some 15.
Proof. vm_compute. reflexivity. Qed.

Lemma patient_load_highest : patient_load highest_input = Some (2835 # 2).
Proof. vm_compute. reflexivity. Qed.

Lemma total_patients_in_range (i : ScenarioInput) :
  in_slider_range i ->
  exists n, total_patients i = Some n /\ (15 <= n <= 1417)%Z.
Proof.
  intros (Ha & Ht & Hh & Hv).
  assert (Hv' : venue_multiplier (venue_type i) = 1 \/
                venue_multiplier (venue_type i) = 2).
  { apply venue_multiplier_cases. }
  destruct (patient_load_between lowest_input i highest_input 15 (2835 # 2))
    as (p & Hp & Hl & Hu); cbn [lowest_input highest_input attendance temp humidity venue_type];
    try lia.
  - change (venue_multiplier Stadium) with 1. destruct Hv' as [-> | ->]; discriminate.
  - change (venue_multiplier FanZone) with 2. destruct Hv' as [-> | ->]; discriminate.
  - exact patient_load_lowest.
  - exact patient_load_highest.
  - unfold total_patients. rewrite Hp. cbn [bind]. eexists. split; [reflexivity|].
    apply int_of_float_mono in Hl, Hu.
    change (int_of_float 15) with 15%Z in Hl.
    change (int_of_float (2835 # 2)) with 1417%Z in Hu. lia.
Qed.

End ScriptFacts.

Module AllocFacts.
Import Binary64 Binary64Facts RoundFacts RoundedFacts PyFacts ScriptFacts.

Lemma In_Zrange (lo n : Z) (len : nat) :
  (lo <= n < lo + Z.of_nat len)%Z -> In n (Zrange lo len).
Proof.
  intros H. unfold Zrange. apply in_map_iff.
  exists (Z.to_nat (n - lo)). split; [lia|]. apply in_seq. lia.
Qed.

Lemma literal_0_65 : float_literal 0.65 = 5854679515581645 # 9007199254740992.
Proof. vm_compute. reflexivity. Qed.

Lemma literal_0_15 : float_literal 0.15 = 5404319552844595 # 36028797018963968.
Proof. vm_compute. reflexivity. Qed.

Lemma unit_roundoff : pow2 (- prec) = 1 # 9007199254740992.
Proof. vm_compute. reflexivity. Qed.

(** Converting [n] and multiplying by a constant loses at most two
    roundings. *)
Lemma int_mul_float_rel (n : Z) (c r : Q) :
  (0 <= n)%Z -> 0 <= c -> int_mul_float n c = Some r ->
  inject_Z n * c * ((1 - pow2 (- prec)) * (1 - pow2 (- prec))) <= r /\
  r <= inject_Z n * c * ((1 + pow2 (- prec)) * (1 + pow2 (- prec))).
Proof.
  intros Hn Hc H. unfold int_mul_float in H.
  apply bind_Some in H. destruct H as (x & Hx & H).
  assert (Hn' : 0 <= inject_Z n).
  { change 0 with (inject_Z 0). rewrite <- Zle_Qle. exact Hn. }
  pose proof (float_of_int_nonneg n x Hn Hx) as Hx0.
  unfold float_of_int in Hx. apply rounded_rel in Hx; [|exact Hn'].
  unfold float_mul in H. apply rounded_rel in H;
    [|apply Qmult_le_0_compat; assumption].
  rewrite unit_roundoff in *.
  set (u := 1 # 9007199254740992) in *.
  assert (Hu1 : 0 <= 1 - u) by (unfold u; discriminate).
  assert (Hu2 : 0 <= 1 + u) by (unfold u; discriminate).
  destruct Hx as [Hx1 Hx2], H as [H1 H2]. split.
  - eapply Qle_trans; [|exact H1].
    setoid_replace (inject_Z n * c * ((1 - u) * (1 - u)))
      with ((inject_Z n * (1 - u)) * c * (1 - u)) by ring.
    apply Qmult_le_compat_r; [|exact Hu1].
    apply Qmult_le_compat_r; [exact Hx1 | exact Hc].
  - eapply Qle_trans; [exact H2|].
    setoid_replace (inject_Z n * c * ((1 + u) * (1 + u)))
      with ((inject_Z n * (1 + u)) * c * (1 + u)) by ring.
    apply Qmult_le_compat_r; [|exact Hu2].
    apply Qmult_le_compat_r; [exact Hx2 | exact Hc].
Qed.

Lemma floor_sandwich (r : Q) :
  0 <= r ->
  inject_Z (int_of_float r) <= r /\ r < inject_Z (int_of_float r) + 1.
Proof.
  intros Hr. rewrite (int_of_float_nonneg r Hr). split.
  - apply Qfloor_le.
  - pose proof (Qlt_floor r) as H. rewrite inject_Z_plus in H. exact H.
Qed.

Lemma onsite_treat_rel (n on : Z) :
  (0 <= n)%Z -> onsite_treat n = Some on ->
  (0 <= on)%Z /\
  inject_Z on <= inject_Z n * (65 # 100) + inject_Z n * (1 # 5000000000000000) /\
  inject_Z n * (65 # 100) - inject_Z n * (1 # 6000000000000000) - 1 < inject_Z on.
Proof.
  intros Hn H. unfold onsite_treat in H.
  apply bind_Some in H. destruct H as (r & Hr & H). injection H as <-.
  assert (Hc : 0 <= float_literal 0.65) by (rewrite literal_0_65; discriminate).
  pose proof (int_mul_float_nonneg n _ r Hc Hn Hr) as Hr0.
  apply int_mul_float_rel in Hr; [|exact Hn|exact Hc].
  rewrite literal_0_65, unit_roundoff in Hr.
  destruct (floor_sandwich r Hr0) as [Hf1 Hf2].
  assert (Hn' : 0 <= inject_Z n).
  { change 0 with (inject_Z 0). rewrite <- Zle_Qle. exact Hn. }
  split.
  - rewrite (int_of_float_nonneg r Hr0).
    change 0%Z with (Qfloor 0). apply Qfloor_resp_le, Hr0.
  - destruct Hr as [Hr1 Hr2]. split; lra.
Qed.

Lemma acs_telehealth_rel (n acs : Z) :
  (0 <= n)%Z -> acs_telehealth n = Some acs ->
  (0 <= acs)%Z /\
  inject_Z acs <= inject_Z n * (15 # 100) + inject_Z n * (1 # 20000000000000000) /\
  inject_Z n * (15 # 100) - inject_Z n * (1 # 20000000000000000) - 1 < inject_Z acs.
Proof.
  intros Hn H. unfold acs_telehealth in H.
  apply bind_Some in H. destruct H as (r & Hr & H). injection H as <-.
  assert (Hc : 0 <= float_literal 0.15) by (rewrite literal_0_15; discriminate).
  pose proof (int_mul_float_nonneg n _ r Hc Hn Hr) as Hr0.
  apply int_mul_float_rel in Hr; [|exact Hn|exact Hc].
  rewrite literal_0_15, unit_roundoff in Hr.
  destruct (floor_sandwich r Hr0) as [Hf1 Hf2].
  assert (Hn' : 0 <= inject_Z n).
  { change 0 with (inject_Z 0). rewrite <- Zle_Qle. exact Hn. }
  split.
  - rewrite (int_of_float_nonneg r Hr0).
    change 0%Z with (Qfloor 0). apply Qfloor_resp_le, Hr0.
  - destruct Hr as [Hr1 Hr2]. split; lra.
Qed.

Lemma onsite_treat_bounds (n on : Z) :
  (0 <= n <= 10 ^ 14)%Z -> onsite_treat n = Some on ->
  (13 * n - 20 <= 20 * on <= 13 * n)%Z.
Proof.
  intros [Hn Hn14] H.
  destruct (onsite_treat_rel n on Hn H) as (_ & Hu & Hl).
  assert (Hn' : 0 <= inject_Z n).
  { change 0 with (inject_Z 0). rewrite <- Zle_Qle. exact Hn. }
  assert (Hn14' : inject_Z n <= inject_Z (10 ^ 14)).
  { rewrite <- Zle_Qle. exact Hn14. }
  change (inject_Z (10 ^ 14)) with (100000000000000 # 1) in Hn14'.
  assert (H1 : inject_Z (13 * n - 21) < inject_Z (20 * on)).
  { unfold Zminus. rewrite inject_Z_plus, !inject_Z_mult.
    change (inject_Z 13) with 13. change (inject_Z 20) with 20.
    change (inject_Z (- (21))) with (- (21)). lra. }
  assert (H2 : inject_Z (20 * on) < inject_Z (13 * n + 1)).
  { rewrite inject_Z_plus, !inject_Z_mult.
    change (inject_Z 13) with 13. change (inject_Z 20) with 20.
    change (inject_Z 1) with 1. lra. }
  rewrite <- Zlt_Qlt in H1, H2. lia.
Qed.

Lemma acs_telehealth_bounds (n acs : Z) :
  (0 <= n <= 10 ^ 14)%Z -> acs_telehealth n = Some acs ->
  (3 * n - 20 <= 20 * acs <= 3 * n)%Z.
Proof.
  intros [Hn Hn14] H.
  destruct (acs_telehealth_rel n acs Hn H) as (_ & Hu & Hl).
  assert (Hn' : 0 <= inject_Z n).
  { change 0 with (inject_Z 0). rewrite <- Zle_Qle. exact Hn. }
  assert (Hn14' : inject_Z n <= inject_Z (10 ^ 14)).
  { rewrite <- Zle_Qle. exact Hn14. }
  change (inject_Z (10 ^ 14)) with (100000000000000 # 1) in Hn14'.
  assert (H1 : inject_Z (3 * n - 21) < inject_Z (20 * acs)).
  { unfold Zminus. rewrite inject_Z_plus, !inject_Z_mult.
    change (inject_Z 3) with 3. change (inject_Z 20) with 20.
    change (inject_Z (- (21))) with (- (21)). lra. }
  assert (H2 : inject_Z (20 * acs) < inject_Z (3 * n + 1)).
  { rewrite inject_Z_plus, !inject_Z_mult.
    change (inject_Z 3) with 3. change (inject_Z 20) with 20.
    change (inject_Z 1) with 1. lra. }
  rewrite <- Zlt_Qlt in H1, H2. lia.
Qed.

(** The two truncated buckets never take more than the total, whatever
    its size. *)
Lemma buckets_le_total (n on acs : Z) :
  (0 <= n)%Z -> onsite_treat n = Some on -> acs_telehealth n = Some acs ->
  (0 <= on)%Z /\ (0 <= acs)%Z /\ (on + acs <= n)%Z.
Proof.
  intros Hn Hon Hacs.
  destruct (onsite_treat_rel n on Hn Hon) as (Hon0 & Hu1 & _).
  destruct (acs_telehealth_rel n acs Hn Hacs) as (Hacs0 & Hu2 & _).
  assert (Hn' : 0 <= inject_Z n).
  { change 0 with (inject_Z 0). rewrite <- Zle_Qle. exact Hn. }
  split; [exact Hon0|]. split; [exact Hacs0|].
  rewrite Zle_Qle, inject_Z_plus. lra.
Qed.

Lemma float_literal_nonneg_0_65 : 0 <= float_literal 0.65.
Proof. rewrite literal_0_65. discriminate. Qed.

Lemma float_literal_nonneg_0_15 : 0 <= float_literal 0.15.
Proof. rewrite literal_0_15. discriminate. Qed.

Lemma onsite_treat_defined (n : Z) :
  (0 <= n <= 10 ^ 14)%Z -> exists on, onsite_treat n = Some on.
Proof.
  intros Hn. unfold onsite_treat.
  destruct (int_mul_float_between 0 n (10 ^ 14) (float_literal 0.65) 0 65000000000000
              float_literal_nonneg_0_65 Hn) as (r & Hr & _).
  - vm_compute. reflexivity.
  - vm_compute. reflexivity.
  - rewrite Hr. cbn [bind]. eexists. reflexivity.
Qed.

Lemma acs_telehealth_defined (n : Z) :
  (0 <= n <= 10 ^ 14)%Z -> exists acs, acs_telehealth n = Some acs.
Proof.
  intros Hn. unfold acs_telehealth.
  destruct (int_mul_float_between 0 n (10 ^ 14) (float_literal 0.15) 0 15000000000000
              float_literal_nonneg_0_15 Hn) as (r & Hr & _).
  - vm_compute. reflexivity.
  - vm_compute. reflexivity.
  - rewrite Hr. cbn [bind]. eexists. reflexivity.
Qed.

(** Off the multiples of 20 the error bounds already pin both buckets to
    the exact floors; on them [0.65 n] and [0.15 n] are integers, and the
    rounded products are checked one by one. *)
Lemma alloc_exact_multiples_of_20 :
  forallb (fun k => alloc_exact (20 * k)) (Zrange 0 71) = true.
Proof. vm_compute. reflexivity. Qed.

Lemma alloc_exact_in_range (n : Z) :
  (0 <= n <= 1417)%Z ->
  onsite_treat n = Some (65 * n / 100)%Z /\
  acs_telehealth n = Some (15 * n / 100)%Z.
Proof.
  intros Hn.
  destruct (Z.eq_dec (n mod 20) 0) as [Hm | Hm].
  - assert (Hk : n = (20 * (n / 20))%Z) by (pose proof (Z.div_mod n 20); lia).
    pose proof (proj1 (forallb_forall _ _) alloc_exact_multiples_of_20 (n / 20)%Z
                  (In_Zrange 0 (n / 20) 71 ltac:(lia))) as H.
    cbv beta in H. rewrite <- Hk in H. unfold alloc_exact in H.
    destruct (onsite_treat n) as [a|]; [|discriminate].
    destruct (acs_telehealth n) as [b|]; [|discriminate].
    apply andb_true_iff in H. destruct H as [Ha Hb].
    apply Z.eqb_eq in Ha, Hb. subst a b. split; reflexivity.
  - destruct (onsite_treat_defined n ltac:(lia)) as (on & Hon).
    destruct (acs_telehealth_defined n ltac:(lia)) as (acs & Hacs).
    pose proof (onsite_treat_bounds n on ltac:(lia) Hon).
    pose proof (acs_telehealth_bounds n acs ltac:(lia) Hacs).
    rewrite Hon, Hacs. split; f_equal; Z.div_mod_to_equations; lia.
Qed.

End AllocFacts.

Module ScoreFacts.
Import Binary64 Binary64Facts RoundFacts RoundedFacts PyFacts ScriptFacts AllocFacts.

Lemma float_of_int_60 : float_of_int 60 = Some 60.
Proof. vm_compute. reflexivity. Qed.

Lemma float_of_int_80 : float_of_int 80 = Some 80.
Proof. vm_compute. reflexivity. Qed.

Lemma nedocs_raw_between (e1 e e2 : Z) (r1 r2 : Q) :
  (e1 <= e <= e2)%Z ->
  nedocs_raw e1 = Some r1 -> nedocs_raw e2 = Some r2 ->
  exists r, nedocs_raw e = Some r /\ r1 <= r /\ r <= r2.
Proof.
  unfold nedocs_raw, surge_burden, float_mul_int, int_add_float.
  rewrite float_of_int_60, float_of_int_80. cbn [bind].
  intros He H1 H2.
  apply bind_Some in H1. destruct H1 as (s1 & H1 & Hr1).
  apply bind_Some in H1. destruct H1 as (q1 & Hq1 & Hs1).
  apply bind_Some in H2. destruct H2 as (s2 & H2 & Hr2).
  apply bind_Some in H2. destruct H2 as (q2 & Hq2 & Hs2).
  destruct (int_truediv_between e1 e e2 BASELINE_ED_CAPACITY q1 q2
              ltac:(reflexivity) He Hq1 Hq2) as (q & Hq & Hql & Hqu).
  rewrite Hq. cbn [bind].
  destruct (float_mul_between_l q1 q q2 60 s1 s2 ltac:(discriminate) Hql Hqu Hs1 Hs2)
    as (s & Hs & Hsl & Hsu).
  rewrite Hs. cbn [bind].
  apply (float_add_between 80 80 80 s1 s s2); try assumption; apply Qle_refl.
Qed.

Lemma nedocs_score_between (e1 e e2 s1 s2 : Z) :
  (e1 <= e <= e2)%Z ->
  nedocs_score e1 = Some s1 -> nedocs_score e2 = Some s2 ->
  exists s, nedocs_score e = Some s /\ (s1 <= s <= s2)%Z.
Proof.
  unfold nedocs_score, nedocs_uncapped. intros He H1 H2.
  apply bind_Some in H1. destruct H1 as (n1 & H1 & Hs1).
  apply bind_Some in H1. destruct H1 as (r1 & Hr1 & Hn1).
  apply bind_Some in H2. destruct H2 as (n2 & H2 & Hs2).
  apply bind_Some in H2. destruct H2 as (r2 & Hr2 & Hn2).
  destruct (nedocs_raw_between e1 e e2 r1 r2 He Hr1 Hr2) as (r & Hr & Hl & Hu).
  rewrite Hr. cbn [bind]. eexists. split; [reflexivity|].
  injection Hs1 as <-. injection Hs2 as <-. injection Hn1 as <-. injection Hn2 as <-.
  apply int_of_float_mono in Hl, Hu. lia.
Qed.

Lemma nedocs_raw_0 : nedocs_raw 0 = Some 80.
Proof. vm_compute. reflexivity. Qed.

(** With no negative transport count the float under [int()] is at
    least the resting baseline, so truncation is the floor. *)
Lemma nedocs_raw_ge_80 (e : Z) (r : Q) :
  (0 <= e)%Z -> nedocs_raw e = Some r -> 80 <= r.
Proof.
  intros He Hr.
  destruct (nedocs_raw_between 0 0 e 80 r ltac:(lia) nedocs_raw_0 Hr)
    as (r0 & Hr0 & _ & H).
  rewrite nedocs_raw_0 in Hr0. injection Hr0 as <-. exact H.
Qed.

Lemma nedocs_score_le_200 (e s : Z) : nedocs_score e = Some s -> (s <= 200)%Z.
Proof.
  unfold nedocs_score. intros H.
  apply bind_Some in H. destruct H as (n & _ & H). injection H as <-. lia.
Qed.

Lemma warning_threshold_value : warning_threshold = Some 133.
Proof. vm_compute. reflexivity. Qed.

Lemma int_ge_float_133 (s : Z) : int_ge_float s 133 = (133 <=? s)%Z.
Proof.
  unfold int_ge_float, Qle_bool. cbn [Qnum Qden inject_Z].
  f_equal. lia.
Qed.

Lemma banner_eq (t s : Z) :
  banner t s = Some (if (98 <=? t)%Z then Override
                     else if (140 <=? s)%Z then Critical
                     else if (133 <=? s)%Z then Warning
                     else Normal).
Proof.
  unfold banner. rewrite warning_threshold_value. cbn [bind].
  rewrite int_ge_float_133, !Z.geb_leb. reflexivity.
Qed.

End ScoreFacts.

Module PipelineFacts.
Import Binary64 Binary64Facts RoundFacts RoundedFacts PyFacts ScriptFacts AllocFacts ScoreFacts.

Lemma nedocs_score_3 : nedocs_score 3 = Some 82%Z.
Proof. vm_compute. reflexivity. Qed.

Lemma nedocs_score_285 : nedocs_score 285 = Some 200%Z.
Proof. vm_compute. reflexivity. Qed.

Lemma nedocs_score_raw (e s : Z) :
  nedocs_score e = Some s ->
  exists r, nedocs_raw e = Some r /\ s = Z.min (int_of_float r) 200.
Proof.
  unfold nedocs_score, nedocs_uncapped. intros H.
  apply bind_Some in H. destruct H as (n & H & Hs).
  apply bind_Some in H. destruct H as (r & Hr & Hn).
  injection Hs as <-. injection Hn as <-. exists r. split; [exact Hr | reflexivity].
Qed.

Lemma surge_burden_nonneg (e : Z) (sb : Q) :
  (0 <= e)%Z -> surge_burden e = Some sb -> 0 <= sb.
Proof.
  unfold surge_burden, float_mul_int. rewrite float_of_int_60. cbn [bind].
  intros He H. apply bind_Some in H. destruct H as (q & Hq & H).
  pose proof (int_truediv_nonneg e BASELINE_ED_CAPACITY q ltac:(reflexivity) He Hq).
  apply (float_mul_nonneg q 60 sb); [assumption | discriminate | exact H].
Qed.

(** Everything the script computes on an input the widgets can deliver. *)
Lemma evaluate_in_range (i : ScenarioInput) :
  in_slider_range i ->
  exists est,
    evaluate i = Some est /\
    total_patients i = Some (totalPatients est) /\
    (15 <= totalPatients est <= 1417)%Z /\
    onSite est = (65 * totalPatients est / 100)%Z /\
    deflected est = (15 * totalPatients est / 100)%Z /\
    edTransports est = ed_transports (totalPatients est) (onSite est) (deflected est) /\
    (3 <= edTransports est <= 285)%Z /\
    nedocs_raw (edTransports est) = Some (nedocsScoreRaw est) /\
    nedocs_score (edTransports est) = Some (nedocsScoreCapped est) /\
    (82 <= nedocsScoreCapped est <= 200)%Z /\
    banner (temp i) (nedocsScoreCapped est) = Some (tier est).
Proof.
  intros Hi. destruct (total_patients_in_range i Hi) as (n & Hn & Hrange).
  destruct (alloc_exact_in_range n ltac:(lia)) as [Hon Hacs].
  set (on := (65 * n / 100)%Z) in *. set (acs := (15 * n / 100)%Z) in *.
  assert (Hed : (3 <= ed_transports n on acs <= 285)%Z).
  { unfold ed_transports, on, acs. Z.div_mod_to_equations. lia. }
  destruct (nedocs_score_between 3 (ed_transports n on acs) 285 82 200 Hed
              nedocs_score_3 nedocs_score_285) as (s & Hs & Hsr).
  destruct (nedocs_score_raw _ _ Hs) as (r & Hr & _).
  eexists (mkSurgeEstimate n on acs (ed_transports n on acs) r s _).
  cbn [totalPatients onSite deflected edTransports nedocsScoreRaw nedocsScoreCapped tier].
  split.
  { unfold evaluate. rewrite Hn. cbn [bind]. rewrite Hon. cbn [bind].
    rewrite Hacs. cbn [bind]. cbv zeta. rewrite Hr. cbn [bind].
    rewrite Hs. cbn [bind]. rewrite banner_eq. cbn [bind]. reflexivity. }
  split; [exact Hn|]. split; [exact Hrange|].
  split; [reflexivity|]. split; [reflexivity|]. split; [reflexivity|].
  split; [exact Hed|]. split; [exact Hr|]. split; [exact Hs|].
  split; [exact Hsr|]. apply banner_eq.
Qed.

(** The components of any result of the script are those of its lines. *)
Lemma evaluate_Some (i : ScenarioInput) (est : SurgeEstimate) :
  evaluate i = Some est ->
  total_patients i = Some (totalPatients est) /\
  onsite_treat (totalPatients est) = Some (onSite est) /\
  acs_telehealth (totalPatients est) = Some (deflected est) /\
  edTransports est = ed_transports (totalPatients est) (onSite est) (deflected est) /\
  nedocs_raw (edTransports est) = Some (nedocsScoreRaw est) /\
  nedocs_score (edTransports est) = Some (nedocsScoreCapped est) /\
  banner (temp i) (nedocsScoreCapped est) = Some (tier est).
Proof.
  unfold evaluate. intros H.
  apply bind_Some in H. destruct H as (n & Hn & H).
  apply bind_Some in H. destruct H as (on & Hon & H).
  apply bind_Some in H. destruct H as (acs & Hacs & H).
  cbv zeta in H.
  apply bind_Some in H. destruct H as (r & Hr & H).
  apply bind_Some in H. destruct H as (s & Hs & H).
  apply bind_Some in H. destruct H as (b & Hb & H).
  injection H as <-.
  cbn [totalPatients onSite deflected edTransports nedocsScoreRaw nedocsScoreCapped tier].
  split; [exact Hn|]. split; [exact Hon|]. split; [exact Hacs|].
  split; [reflexivity|]. split; [exact Hr|]. split; [exact Hs|]. exact Hb.
Qed.

Lemma total_patients_nonneg (i : ScenarioInput) (n : Z) :
  (0 <= attendance i)%Z -> total_patients i = Some n -> (0 <= n)%Z.
Proof.
  unfold total_patients. intros Ha H.
  apply bind_Some in H. destruct H as (p & Hp & H). injection H as <-.
  pose proof (patient_load_nonneg i p Ha Hp) as Hp0.
  rewrite (int_of_float_nonneg p Hp0).
  change 0%Z with (Qfloor 0). apply Qfloor_resp_le, Hp0.
Qed.

End PipelineFacts.

Module HeatFacts.
Import Binary64 Binary64Facts RoundFacts RoundedFacts PyFacts ScriptFacts.

Lemma rounded_pow2_1020 : rounded (pow2 1020) = Some (pow2 1020).
Proof. vm_compute. reflexivity. Qed.

Lemma rounded_opp_pow2_1020 : rounded (- pow2 1020) = Some (- pow2 1020).
Proof. vm_compute. reflexivity. Qed.

Lemma rounded_pow2_1022 : rounded (pow2 1022) = Some (pow2 1022).
Proof. vm_compute. reflexivity. Qed.

Lemma rounded_1 : rounded 1 = Some 1.
Proof. vm_compute. reflexivity. Qed.

Lemma pow2_1024_split : pow2 emax == 16 * pow2 1020.
Proof. vm_compute. reflexivity. Qed.

Lemma pow2_1022_split : pow2 1022 == 4 * pow2 1020.
Proof. vm_compute. reflexivity. Qed.

Lemma literal_0_05 : float_literal 0.05 = 3602879701896397 # 72057594037927936.
Proof. vm_compute. reflexivity. Qed.

Lemma literal_0_01 : float_literal 0.01 = 5764607523034235 # 576460752303423488.
Proof. vm_compute. reflexivity. Qed.

(** A finite double times 0.05 or 0.01 stays far below the overflow
    threshold. *)
Lemma ramp_defined (x c : Q) :
  - pow2 emax < x < pow2 emax -> 0 <= c -> c <= 1 # 16 ->
  exists r, float_mul x c = Some r /\ - pow2 1020 <= r /\ r <= pow2 1020.
Proof.
  intros [Hlo Hhi] Hc0 Hc1. unfold float_mul.
  pose proof pow2_1024_split as E. pose proof (pow2_pos 1020) as HP.
  set (P := pow2 1020) in *. set (M := pow2 emax) in *.
  assert (Hxc : - P <= x * c /\ x * c <= P).
  { destruct (Qlt_le_dec x 0) as [Hx | Hx].
    - assert (H1 : (- x) * c <= (16 * P) * (1 # 16)).
      { apply Qmult_le_compat_nonneg; split; lra. }
      assert (H2 : 0 <= (- x) * c) by (apply Qmult_le_0_compat; lra).
      split; lra.
    - assert (H1 : x * c <= (16 * P) * (1 # 16)).
      { apply Qmult_le_compat_nonneg; split; lra. }
      assert (H2 : 0 <= x * c) by (apply Qmult_le_0_compat; lra).
      split; lra. }
  destruct Hxc as [H1 H2].
  exact (rounded_between (- P) (x * c) P _ _ H1 H2
           rounded_opp_pow2_1020 rounded_pow2_1020).
Qed.

Lemma float_of_int_finite (n : Z) (x : Q) :
  float_of_int n = Some x -> - pow2 emax < x < pow2 emax.
Proof.
  unfold float_of_int. intros H. apply rounded_Some in H.
  destruct H as [-> H]. exact H.
Qed.

(** Line 29 raises only when one of its two int-to-float conversions
    does; the additions cannot overflow. *)
Lemma heat_index_multiplier_defined (t h : Z) (x y : Q) :
  float_of_int (t - 85) = Some x -> float_of_int (h - 60) = Some y ->
  exists tx s hy m,
    float_mul x (float_literal 0.05) = Some tx /\
    float_add 1 (max0 tx) = Some s /\
    float_mul y (float_literal 0.01) = Some hy /\
    float_add s (max0 hy) = Some m /\
    heat_index_multiplier t h = Some m.
Proof.
  intros Hx Hy.
  destruct (ramp_defined x (float_literal 0.05) (float_of_int_finite _ _ Hx))
    as (tx & Htx & Htl & Htu);
    [rewrite literal_0_05; discriminate | rewrite literal_0_05; discriminate |].
  destruct (ramp_defined y (float_literal 0.01) (float_of_int_finite _ _ Hy))
    as (hy & Hhy & Hhl & Hhu);
    [rewrite literal_0_01; discriminate | rewrite literal_0_01; discriminate |].
  pose proof pow2_1022_split as E. pose proof (pow2_pos 1020) as HP.
  pose proof (max0_nonneg tx) as Ht0. pose proof (max0_nonneg hy) as Hh0.
  assert (Ht1 : max0 tx <= pow2 1020).
  { unfold max0. destruct (Qlt_bool 0 tx); [exact Htu | lra]. }
  assert (Hh1 : max0 hy <= pow2 1020).
  { unfold max0. destruct (Qlt_bool 0 hy); [exact Hhu | lra]. }
  assert (H1P : 1 <= pow2 1020).
  { change 1 with (pow2 0). apply pow2_le. lia. }
  destruct (rounded_between 1 (1 + max0 tx) (pow2 1022) 1 (pow2 1022))
    as (s & Hs & Hsl & Hsu); try lra;
    [exact rounded_1 | exact rounded_pow2_1022 |].
  assert (Hs2 : s <= 2 * pow2 1020).
  { apply rounded_Some in Hs. destruct Hs as [-> _].
    assert (Hb : rounded (2 * pow2 1020) = Some (2 * pow2 1020)).
    { vm_compute. reflexivity. }
    apply rounded_Some in Hb. destruct Hb as [Hb _].
    rewrite Hb. apply round_mono. lra. }
  destruct (rounded_between 1 (s + max0 hy) (pow2 1022) 1 (pow2 1022))
    as (m & Hm & Hml & Hmu); try lra;
    [exact rounded_1 | exact rounded_pow2_1022 |].
  exists tx, s, hy, m. repeat (split; [assumption|]).
  unfold heat_index_multiplier, int_mul_float.
  rewrite Hx. cbn [bind]. rewrite Htx. cbn [bind].
  unfold float_add at 1. rewrite Hs. cbn [bind].
  rewrite Hy. cbn [bind]. rewrite Hhy. cbn [bind]. exact Hm.
Qed.

Lemma int_truediv_0 : int_truediv 0 10000 = Some 0.
Proof. vm_compute. reflexivity. Qed.

Lemma float_mul_0_l (y : Q) : float_mul 0 y = Some 0.
Proof.
  unfold float_mul. rewrite (rounded_ext (0 * y) 0) by ring.
  vm_compute. reflexivity.
Qed.

(** With nobody attending, the load is zero whenever line 29 yields a
    multiplier. *)
Lemma patient_load_empty (t h : Z) (v : string) (m : Q) :
  heat_index_multiplier t h = Some m ->
  patient_load (mkScenarioInput 0 t h v) = Some 0.
Proof.
  intros Hm. unfold patient_load. cbn [attendance temp humidity venue_type].
  rewrite Hm. cbn [bind]. rewrite int_truediv_0. cbn [bind].
  rewrite float_mul_0_l. cbn [bind]. rewrite float_mul_0_l. cbn [bind].
  apply float_mul_0_l.
Qed.

End HeatFacts.

Module ExactScore.
Import Binary64 Binary64Facts RoundFacts RoundedFacts PyFacts.
Import ScriptFacts AllocFacts ScoreFacts PipelineFacts HeatFacts.

(** Every integer of magnitude up to [2^1023] converts to a double. *)
Lemma float_of_int_defined (n : Z) :
  (- 2 ^ 1023 <= n <= 2 ^ 1023)%Z -> exists x, float_of_int n = Some x.
Proof.
  intros Hn.
  destruct (float_of_int_between (- 2 ^ 1023) n (2 ^ 1023)
              (inject_Z (- 2 ^ 1023)) (inject_Z (2 ^ 1023)) Hn)
    as (x & Hx & _); [vm_compute; reflexivity | vm_compute; reflexivity |].
  exists x. exact Hx.
Qed.

Lemma score_exact_upto_285 : forallb score_exact (Zrange 0 286) = true.
Proof. vm_compute. reflexivity. Qed.

(** On the slider ranges the two roundings under [int()] never cross a
    whole number: the capped score is the exact
    [min(floor(80 + 0.75 * edTransports), 200)]. *)
Lemma capped_score_exact_in_range (i : ScenarioInput) :
  in_slider_range i ->
  exists est,
    evaluate i = Some est /\
    nedocsScoreCapped est
    = Z.min (Qfloor (80 + inject_Z (edTransports est) / 80 * 60)) 200.
Proof.
  intros Hi.
  destruct (evaluate_in_range i Hi)
    as (est & Hev & _ & _ & _ & _ & _ & Hed & _ & Hs & _).
  exists est. split; [exact Hev|].
  pose proof (proj1 (forallb_forall _ _) score_exact_upto_285 (edTransports est)
                (In_Zrange 0 (edTransports est) 286 ltac:(lia))) as H.
  unfold score_exact in H. unfold nedocs_score in Hs.
  destruct (nedocs_uncapped (edTransports est)) as [s|]; [|discriminate].
  cbn [bind] in Hs. injection Hs as <-. apply Z.eqb_eq in H. rewrite H.
  f_equal. set (e := edTransports est).
  unfold Qfloor, Qdiv, Qmult, Qplus, Qinv, inject_Z. cbn [Qnum Qden].
  Z.div_mod_to_equations. lia.
Qed.

End ExactScore.

Module IeeeAgreement.

(** The rational model and the standard library's IEEE-754 operations
    give the same multiplier and the same load on the sample inputs, ... *)
Lemma agreement_on_sample_inputs : forallb agree_on_input sample_inputs = true.
Proof. vm_compute. reflexivity. Qed.

(** ... the same two bucket products for every total up to 150 and at
    the edge of the doubles, overflow included, ... *)
Lemma agreement_on_counts :
  forallb agree_on_count (Zrange 0 151 ++ extreme_counts) = true.
Proof. vm_compute. reflexivity. Qed.

(** ... the same raw score for every transport count from -110 to 289,
    and the same warning threshold. *)
Lemma agreement_on_scores : forallb agree_on_score (Zrange (-110) 400) = true.
Proof. vm_compute. reflexivity. Qed.

Lemma agreement_on_threshold :
  same_value warning_threshold Ieee.warning_threshold = true.
Proof. vm_compute. reflexivity. Qed.

End IeeeAgreement.

(* ================================================================= *)
(** ** Line 35: the distance to the exact product *)

Module LoadFacts.
Import Binary64 Binary64Facts RoundFacts RoundedFacts PyFacts.
Import ScriptFacts AllocFacts HeatFacts.

Lemma lo_range : 0 <= 1 - pow2 (- prec) /\ 1 - pow2 (- prec) <= 1.
Proof. rewrite unit_roundoff. split; discriminate. Qed.

Lemma hi_range : 1 <= 1 + pow2 (- prec).
Proof. rewrite unit_roundoff. discriminate. Qed.

Lemma qpow_nonneg (x : Q) (k : nat) : 0 <= x -> 0 <= qpow x k.
Proof.
  intros Hx. induction k as [|k IH]; cbn [qpow]; [discriminate|].
  apply Qmult_le_0_compat; assumption.
Qed.

Lemma qpow_add (x : Q) (j k : nat) : qpow x (j + k) == qpow x j * qpow x k.
Proof.
  induction j as [|j IH]; cbn [qpow Nat.add]; [ring|]. rewrite IH. ring.
Qed.

Lemma qpow_lo_step (k : nat) :
  qpow (1 - pow2 (- prec)) (S k) <= qpow (1 - pow2 (- prec)) k.
Proof.
  cbn [qpow]. destruct lo_range as [H0 H1].
  pose proof (qpow_nonneg _ k H0) as Hk.
  setoid_replace (qpow (1 - pow2 (- prec)) k)
    with (1 * qpow (1 - pow2 (- prec)) k) at 2 by ring.
  apply Qmult_le_compat_r; assumption.
Qed.

Lemma qpow_hi_step (k : nat) :
  qpow (1 + pow2 (- prec)) k <= qpow (1 + pow2 (- prec)) (S k).
Proof.
  cbn [qpow]. pose proof hi_range as H1.
  assert (H0 : 0 <= 1 + pow2 (- prec)) by lra.
  pose proof (qpow_nonneg _ k H0) as Hk.
  setoid_replace (qpow (1 + pow2 (- prec)) k)
    with (1 * qpow (1 + pow2 (- prec)) k) at 1 by ring.
  apply Qmult_le_compat_r; assumption.
Qed.

Lemma qpow_lo_anti (j k : nat) :
  (j <= k)%nat -> qpow (1 - pow2 (- prec)) k <= qpow (1 - pow2 (- prec)) j.
Proof.
  induction 1 as [|k _ IH]; [apply Qle_refl|].
  eapply Qle_trans; [apply qpow_lo_step | exact IH].
Qed.

Lemma qpow_hi_mono (j k : nat) :
  (j <= k)%nat -> qpow (1 + pow2 (- prec)) j <= qpow (1 + pow2 (- prec)) k.
Proof.
  induction 1 as [|k _ IH]; [apply Qle_refl|].
  eapply Qle_trans; [exact IH | apply qpow_hi_step].
Qed.

Lemma qpow_lo_nonneg (k : nat) : 0 <= qpow (1 - pow2 (- prec)) k.
Proof. apply qpow_nonneg, lo_range. Qed.

Lemma qpow_hi_nonneg (k : nat) : 0 <= qpow (1 + pow2 (- prec)) k.
Proof. apply qpow_nonneg. pose proof hi_range. lra. Qed.

(** *** The enclosure through each operation *)

Lemma near_nonneg (k : nat) (x e : Q) : near k x e -> 0 <= x.
Proof.
  intros (He & Hlo & _). eapply Qle_trans; [|exact Hlo].
  apply Qmult_le_0_compat; [exact He | apply qpow_lo_nonneg].
Qed.

Lemma near_exact (x : Q) : 0 <= x -> near 0 x x.
Proof. intros Hx. unfold near. cbn [qpow]. repeat split; lra. Qed.

Lemma near_ext (k : nat) (x e e' : Q) : e == e' -> near k x e -> near k x e'.
Proof. intros E (He & Hlo & Hhi). unfold near. rewrite <- E. auto. Qed.

Lemma near_weaken (j k : nat) (x e : Q) : (j <= k)%nat -> near j x e -> near k x e.
Proof.
  intros Hjk (He & Hlo & Hhi). split; [exact He|]. split.
  - eapply Qle_trans; [|exact Hlo].
    rewrite !(Qmult_comm e). apply Qmult_le_compat_r; [|exact He].
    apply qpow_lo_anti, Hjk.
  - eapply Qle_trans; [exact Hhi|].
    rewrite !(Qmult_comm e). apply Qmult_le_compat_r; [|exact He].
    apply qpow_hi_mono, Hjk.
Qed.

Lemma near_rounded (k : nat) (x y e : Q) :
  near k x e -> rounded x = Some y -> near (S k) y e.
Proof.
  intros Hn Hy. pose proof (near_nonneg _ _ _ Hn) as Hx.
  destruct Hn as (He & Hlo & Hhi).
  apply rounded_rel in Hy; [|exact Hx]. destruct Hy as [Hy1 Hy2].
  destruct lo_range as [Hu0 _]. pose proof hi_range as Hu1.
  split; [exact He|]. cbn [qpow]. split.
  - eapply Qle_trans; [|exact Hy1].
    setoid_replace (e * ((1 - pow2 (- prec)) * qpow (1 - pow2 (- prec)) k))
      with (e * qpow (1 - pow2 (- prec)) k * (1 - pow2 (- prec))) by ring.
    apply Qmult_le_compat_r; assumption.
  - eapply Qle_trans; [exact Hy2|].
    setoid_replace (e * ((1 + pow2 (- prec)) * qpow (1 + pow2 (- prec)) k))
      with (e * qpow (1 + pow2 (- prec)) k * (1 + pow2 (- prec))) by ring.
    apply Qmult_le_compat_r; [exact Hhi | lra].
Qed.

Lemma near_mul (j k : nat) (x y e f : Q) :
  near j x e -> near k y f -> near (j + k) (x * y) (e * f).
Proof.
  intros Hx Hy.
  pose proof (near_nonneg _ _ _ Hx) as Hx0.
  pose proof (near_nonneg _ _ _ Hy) as Hy0.
  destruct Hx as (He & Hx1 & Hx2), Hy as (Hf & Hy1 & Hy2).
  split; [apply Qmult_le_0_compat; assumption|]. rewrite !qpow_add. split.
  - setoid_replace (e * f * (qpow (1 - pow2 (- prec)) j * qpow (1 - pow2 (- prec)) k))
      with ((e * qpow (1 - pow2 (- prec)) j) * (f * qpow (1 - pow2 (- prec)) k))
      by ring.
    apply Qmult_le_compat_nonneg; (split; [|assumption]);
      apply Qmult_le_0_compat; try assumption; apply qpow_lo_nonneg.
  - setoid_replace (e * f * (qpow (1 + pow2 (- prec)) j * qpow (1 + pow2 (- prec)) k))
      with ((e * qpow (1 + pow2 (- prec)) j) * (f * qpow (1 + pow2 (- prec)) k))
      by ring.
    apply Qmult_le_compat_nonneg; split; assumption.
Qed.

Lemma near_add (k : nat) (x y e f : Q) :
  near k x e -> near k y f -> near k (x + y) (e + f).
Proof.
  intros (He & Hx1 & Hx2) (Hf & Hy1 & Hy2).
  split; [lra|]. rewrite !Qmult_plus_distr_l. split; lra.
Qed.

Lemma near_max0 (k : nat) (x e : Q) : near k x e -> near k (max0 x) e.
Proof.
  intros Hn. pose proof (near_nonneg _ _ _ Hn) as Hx.
  destruct Hn as (He & Hlo & Hhi). unfold max0.
  destruct (Qlt_bool 0 x) eqn:E; [repeat split; assumption|].
  assert (Hx' : x <= 0).
  { apply Qnot_lt_le. intros C. apply Qlt_bool_iff in C. congruence. }
  split; [exact He|]. split; lra.
Qed.

Lemma near_zero (k : nat) : near k 0 0.
Proof. unfold near. rewrite !Qmult_0_l. repeat split; apply Qle_refl. Qed.

(** Nine roundings stay within [10^-15] of the exact value, relatively. *)
Lemma near_9_bound (x e : Q) :
  near 9 x e ->
  e * (1 - (1 # 1000000000000000)) <= x /\
  x <= e * (1 + (1 # 1000000000000000)).
Proof.
  intros (He & Hlo & Hhi).
  assert (H1 : 1 - (1 # 1000000000000000) <= qpow (1 - pow2 (- prec)) 9).
  { vm_compute. discriminate. }
  assert (H2 : qpow (1 + pow2 (- prec)) 9 <= 1 + (1 # 1000000000000000)).
  { vm_compute. discriminate. }
  split.
  - eapply Qle_trans; [|exact Hlo].
    rewrite !(Qmult_comm e). apply Qmult_le_compat_r; assumption.
  - eapply Qle_trans; [exact Hhi|].
    rewrite !(Qmult_comm e). apply Qmult_le_compat_r; assumption.
Qed.

(** *** The enclosure through lines 29-35 *)

Lemma inject_Z_nonneg (n : Z) : (0 <= n)%Z -> 0 <= inject_Z n.
Proof. intros H. change 0 with (inject_Z 0). rewrite <- Zle_Qle. exact H. Qed.

Lemma float_of_int_near (n : Z) (x : Q) :
  (0 <= n)%Z -> float_of_int n = Some x -> near 1 x (inject_Z n).
Proof.
  intros Hn Hx. unfold float_of_int in Hx.
  apply (near_rounded 0 (inject_Z n)); [|exact Hx].
  apply near_exact, inject_Z_nonneg, Hn.
Qed.

Lemma literal_0_05_near : near 1 (float_literal 0.05) 0.05.
Proof. unfold near. repeat split; vm_compute; discriminate. Qed.

Lemma literal_0_01_near : near 1 (float_literal 0.01) 0.01.
Proof. unfold near. repeat split; vm_compute; discriminate. Qed.

(** One term of line 29: [max(0, n * c)]. *)
Lemma ramp_near (n : Z) (c e r : Q) :
  near 1 c e -> int_mul_float n c = Some r ->
  near 3 (max0 r) (Qmax 0 (inject_Z n * e)).
Proof.
  intros Hc Hr. pose proof (near_nonneg _ _ _ Hc) as Hc0.
  assert (He : 0 <= e) by apply Hc.
  destruct (Z.le_gt_cases n 0) as [Hn | Hn].
  - rewrite (max0_nonpos r) by (apply (int_mul_float_nonpos n c); assumption).
    apply (near_ext 3 0 0); [|apply near_zero].
    symmetry. apply Q.max_l.
    assert (Hn' : inject_Z n <= 0).
    { change 0 with (inject_Z 0). rewrite <- Zle_Qle. exact Hn. }
    setoid_replace (inject_Z n * e) with (- ((- inject_Z n) * e)) by ring.
    assert (0 <= (- inject_Z n) * e) by (apply Qmult_le_0_compat; lra).
    lra.
  - unfold int_mul_float in Hr. apply bind_Some in Hr.
    destruct Hr as (x & Hx & Hr).
    apply float_of_int_near in Hx; [|lia].
    pose proof (near_mul 1 1 x c _ _ Hx Hc) as Hm.
    unfold float_mul in Hr. apply (near_rounded 2 (x * c) r _ Hm) in Hr.
    apply near_max0.
    apply (near_ext 3 r (inject_Z n * e)); [|exact Hr].
    symmetry. apply Q.max_r.
    apply Qmult_le_0_compat; [apply inject_Z_nonneg; lia | exact He].
Qed.

Lemma heat_index_multiplier_near (t h : Z) (m : Q) :
  heat_index_multiplier t h = Some m -> near 5 m (exact_env_multiplier t h).
Proof.
  unfold heat_index_multiplier, exact_env_multiplier. intros H.
  inv_bind H. inv_bind H. inv_bind H.
  apply (ramp_near (t - 85) _ 0.05 x literal_0_05_near) in E.
  apply (ramp_near (h - 60) _ 0.01 x1 literal_0_01_near) in E1.
  assert (H1 : near 3 1 1).
  { apply (near_weaken 0); [lia | apply near_exact; discriminate]. }
  unfold float_add in E0, H.
  apply (near_rounded 3 _ _ _ (near_add 3 _ _ _ _ H1 E)) in E0.
  apply (near_weaken 3 4) in E1; [|lia].
  apply (near_rounded 4 _ _ _ (near_add 4 _ _ _ _ E0 E1)) in H.
  exact H.
Qed.

Lemma int_truediv_near (a : Z) (q : Q) :
  (0 <= a)%Z -> int_truediv a 10000 = Some q ->
  near 1 q (inject_Z a / 10000).
Proof.
  intros Ha Hq. unfold int_truediv in Hq. cbn [Z.eqb] in Hq.
  apply (near_rounded 0 (inject_Z a / inject_Z 10000)); [|exact Hq].
  apply near_exact. apply Qle_shift_div_l; [reflexivity|].
  rewrite Qmult_0_l. apply inject_Z_nonneg, Ha.
Qed.

(** The double inside [int(...)] on line 35 is the exact product after at
    most nine roundings. *)
Lemma patient_load_near (i : ScenarioInput) (p : Q) :
  (0 <= attendance i)%Z -> patient_load i = Some p -> near 9 p (exact_load i).
Proof.
  intros Ha H. unfold patient_load in H. unfold exact_load.
  inv_bind H. inv_bind H. inv_bind H. inv_bind H.
  apply heat_index_multiplier_near in E.
  apply int_truediv_near in E0; [|exact Ha].
  assert (H15 : near 0 base_ppr_per_10k 15) by (apply near_exact; discriminate).
  unfold float_mul in E1, E2, H.
  apply (near_rounded 1 _ _ _ (near_mul 1 0 _ _ _ _ E0 H15)) in E1.
  apply (near_rounded 7 _ _ _ (near_mul 2 5 _ _ _ _ E1 E)) in E2.
  assert (Hv : near 0 (venue_multiplier (venue_type i))
                      (venue_multiplier (venue_type i))).
  { apply near_exact, venue_multiplier_nonneg. }
  apply (near_rounded 8 _ _ _ (near_mul 8 0 _ _ _ _ E2 Hv)) in H.
  exact H.
Qed.

(** *** The exact product counts in millionths *)

Lemma Qmax_0_inject (n : Z) (c : Q) :
  0 <= c -> Qmax 0 (inject_Z n * c) == inject_Z (Z.max 0 n) * c.
Proof.
  intros Hc. destruct (Z.le_gt_cases n 0) as [Hn | Hn].
  - rewrite Z.max_l by exact Hn. rewrite Q.max_l; [change (inject_Z 0) with 0; ring|].
    assert (Hn' : inject_Z n <= 0).
    { change 0 with (inject_Z 0). rewrite <- Zle_Qle. exact Hn. }
    setoid_replace (inject_Z n * c) with (- ((- inject_Z n) * c)) by ring.
    assert (0 <= (- inject_Z n) * c) by (apply Qmult_le_0_compat; lra).
    lra.
  - rewrite Z.max_r by lia. apply Q.max_r.
    apply Qmult_le_0_compat; [apply inject_Z_nonneg; lia | exact Hc].
Qed.

Lemma exact_load_millionths (i : ScenarioInput) :
  exists N : Z, exact_load i * 1000000 == inject_Z N.
Proof.
  unfold exact_load, exact_env_multiplier.
  assert (Hc1 : 0 <= 0.05) by discriminate.
  assert (Hc2 : 0 <= 0.01) by discriminate.
  pose proof (Qmax_0_inject (temp i - 85) 0.05 Hc1) as E1.
  pose proof (Qmax_0_inject (humidity i - 60) 0.01 Hc2) as E2.
  destruct (venue_multiplier_cases (venue_type i)) as [-> | ->].
  - exists (attendance i * 15
            * (100 + 5 * Z.max 0 (temp i - 85) + Z.max 0 (humidity i - 60)))%Z.
    rewrite E1, E2.
    rewrite !inject_Z_mult, !inject_Z_plus, !inject_Z_mult.
    change (inject_Z 15) with 15. change (inject_Z 100) with 100.
    change (inject_Z 5) with 5. field.
  - exists (attendance i * 15
            * (100 + 5 * Z.max 0 (temp i - 85) + Z.max 0 (humidity i - 60)) * 2)%Z.
    rewrite E1, E2.
    rewrite !inject_Z_mult, !inject_Z_plus, !inject_Z_mult.
    change (inject_Z 15) with 15. change (inject_Z 100) with 100.
    change (inject_Z 5) with 5. change (inject_Z 2) with 2. field.
Qed.

Lemma exact_load_nonneg (i : ScenarioInput) :
  (0 <= attendance i)%Z -> 0 <= exact_load i.
Proof.
  intros Ha. unfold exact_load, exact_env_multiplier.
  pose proof (Q.le_max_l 0 (inject_Z (temp i - 85) * 0.05)).
  pose proof (Q.le_max_l 0 (inject_Z (humidity i - 60) * 0.01)).
  apply Qmult_le_0_compat; [|apply venue_multiplier_nonneg].
  apply Qmult_le_0_compat; [|lra].
  apply Qmult_le_0_compat; [|discriminate].
  apply Qle_shift_div_l; [reflexivity|]. rewrite Qmult_0_l.
  apply inject_Z_nonneg, Ha.
Qed.

(** A double within [10^-15] (relatively) of an exact value below 2000
    that counts in millionths has the exact value's floor, unless the
    exact value is whole, where it may fall one short. *)
Lemma floor_of_near (p e : Q) (N : Z) :
  0 <= e -> e <= 2000 -> e * 1000000 == inject_Z N ->
  e * (1 - (1 # 1000000000000000)) <= p ->
  p <= e * (1 + (1 # 1000000000000000)) ->
  Qfloor p = Qfloor e \/
  (Qfloor p = (Qfloor e - 1)%Z /\ inject_Z (Qfloor e) == e).
Proof.
  intros He0 He1 HN Hlo Hhi.
  pose proof (Qfloor_le e) as Hf1. pose proof (Qlt_floor e) as Hf2.
  pose proof (Qfloor_le p) as Hp1. pose proof (Qlt_floor p) as Hp2.
  rewrite inject_Z_plus in Hf2, Hp2.
  change (inject_Z 1) with 1 in Hf2, Hp2.
  set (F := Qfloor e) in *. set (n := Qfloor p) in *.
  assert (HZ : (1000000 * F <= N < 1000000 * F + 1000000)%Z).
  { split.
    - rewrite Zle_Qle, inject_Z_mult. change (inject_Z 1000000) with 1000000. lra.
    - rewrite Zlt_Qlt, inject_Z_plus, inject_Z_mult.
      change (inject_Z 1000000) with 1000000. lra. }
  assert (Hup : (n <= F)%Z).
  { assert (HN' : (N <= 1000000 * F + 999999)%Z) by lia.
    rewrite Zle_Qle, inject_Z_plus, inject_Z_mult in HN'.
    change (inject_Z 1000000) with 1000000 in HN'.
    change (inject_Z 999999) with 999999 in HN'.
    apply Z.lt_succ_r. unfold Z.succ.
    rewrite Zlt_Qlt, inject_Z_plus. change (inject_Z 1) with 1. lra. }
  assert (Hdn : (F - 1 <= n)%Z).
  { apply Z.lt_succ_r. unfold Z.succ.
    rewrite Zlt_Qlt, inject_Z_plus. unfold Z.sub. rewrite inject_Z_plus.
    change (inject_Z (- (1))) with (- 1). change (inject_Z 1) with 1. lra. }
  destruct (Z.eq_dec N (1000000 * F)) as [HE | HE].
  - destruct (Z.eq_dec n F) as [Hn | Hn]; [left; exact Hn | right].
    split; [lia|].
    rewrite HE, inject_Z_mult in HN. change (inject_Z 1000000) with 1000000 in HN.
    lra.
  - left. assert (HN' : (1000000 * F + 1 <= N)%Z) by lia.
    rewrite Zle_Qle, inject_Z_plus, inject_Z_mult in HN'.
    change (inject_Z 1000000) with 1000000 in HN'.
    change (inject_Z 1) with 1 in HN'.
    assert (F < n + 1)%Z; [|lia].
    rewrite Zlt_Qlt, inject_Z_plus. change (inject_Z 1) with 1. lra.
Qed.

End LoadFacts.

(* ================================================================= *)
(** ** Properties of the script *)

Import Binary64 Binary64Facts RoundFacts RoundedFacts PyFacts.
Import ScriptFacts AllocFacts ScoreFacts PipelineFacts HeatFacts.

(** C1. On every input within the slider ranges the script runs to
    completion and its three buckets partition the total exactly: on-site
    plus deflected plus ED transports is the total, the on-site and
    deflected buckets being the exact floors of 65% and 15% of the total
    and the transport bucket the remainder. *)
Theorem allocation_partitions_total (i : ScenarioInput) :
  in_slider_range i ->
  exists est,
    evaluate i = Some est /\
    (onSite est + deflected est + edTransports est = totalPatients est)%Z /\
    onSite est = Qfloor (0.65 * inject_Z (totalPatients est)) /\
    deflected est = Qfloor (0.15 * inject_Z (totalPatients est)) /\
    edTransports est = (totalPatients est - onSite est - deflected est)%Z.
Proof.
  intros Hi.
  destruct (evaluate_in_range i Hi)
    as (est & Hev & _ & _ & Hon & Hacs & Hed & _).
  exists est. split; [exact Hev|].
  unfold ed_transports in Hed.
  split; [lia|]. split; [|split; [|exact Hed]].
  - rewrite Hon. unfold Qfloor, Qmult, inject_Z. cbn [Qnum Qden].
    reflexivity.
  - rewrite Hacs. unfold Qfloor, Qmult, inject_Z. cbn [Qnum Qden].
    reflexivity.
Qed.

Lemma allocation_partitions_total_witness :
  exists est,
    evaluate lowest_input = Some est /\
    (onSite est + deflected est + edTransports est = totalPatients est)%Z.
Proof.
  destruct (allocation_partitions_total lowest_input) as (est & Hev & Hsum & _).
  - unfold in_slider_range, lowest_input. cbn. repeat split; try lia. left. reflexivity.
  - exists est. split; assumption.
Defined.

(** C3. On every input within the slider ranges the capped score lies
    between 0 and 200. *)
Theorem capped_score_within_gauge (i : ScenarioInput) :
  in_slider_range i ->
  exists est,
    evaluate i = Some est /\
    (0 <= nedocsScoreCapped est <= 200)%Z.
Proof.
  intros Hi.
  destruct (evaluate_in_range i Hi)
    as (est & Hev & _ & _ & _ & _ & _ & _ & _ & _ & Hs & _).
  exists est. split; [exact Hev | lia].
Qed.

Lemma capped_score_within_gauge_witness :
  exists est,
    evaluate highest_input = Some est /\
    (0 <= nedocsScoreCapped est <= 200)%Z.
Proof.
  apply (capped_score_within_gauge highest_input).
  unfold in_slider_range, highest_input. cbn. repeat split; try lia. right. reflexivity.
Defined.

(** C9. On every input within the slider ranges the capped score is at
    least 80: the surge burden added to the resting baseline is never
    negative, so the needle never sits in the gauge band from 0 to 80. *)
Theorem capped_score_at_least_baseline (i : ScenarioInput) :
  in_slider_range i ->
  exists est sb,
    evaluate i = Some est /\
    surge_burden (edTransports est) = Some sb /\ 0 <= sb /\
    (80 <= nedocsScoreCapped est)%Z /\
    ~ (0 <= nedocsScoreCapped est <= 80)%Z.
Proof.
  intros Hi.
  destruct (evaluate_in_range i Hi)
    as (est & Hev & _ & _ & _ & _ & _ & Hed & Hraw & _ & Hs & _).
  unfold nedocs_raw in Hraw.
  apply bind_Some in Hraw. destruct Hraw as (sb & Hsb & _).
  exists est, sb. split; [exact Hev|]. split; [exact Hsb|].
  split; [apply (surge_burden_nonneg (edTransports est)); [lia | exact Hsb]|].
  split; lia.
Qed.

Lemma capped_score_at_least_baseline_witness :
  exists est, evaluate lowest_input = Some est /\ (80 <= nedocsScoreCapped est)%Z.
Proof.
  destruct (capped_score_at_least_baseline lowest_input)
    as (est & sb & Hev & _ & _ & H & _).
  - unfold in_slider_range, lowest_input. cbn. repeat split; try lia. left. reflexivity.
  - exists est. split; assumption.
Defined.

(** C2. The banner chain is read top to bottom and the first match wins:
    a temperature of 98 or more gives the override whatever the score is;
    below 98, a capped score of 140 or more is critical; otherwise a
    capped score of 133 or more (the threshold [140 * 0.95] evaluates to
    exactly 133) is a warning; otherwise the banner is the normal one.
    The tier of every result of the script is the banner of its
    temperature and capped score, and scenario 2 of the specification
    ends in the override. *)
Theorem tier_priority_order :
  warning_threshold = Some 133 /\
  (forall t s : Z,
     ((98 <= t)%Z -> banner t s = Some Override) /\
     ((t < 98)%Z -> (140 <= s)%Z -> banner t s = Some Critical) /\
     ((t < 98)%Z -> (s < 140)%Z -> (133 <= s)%Z -> banner t s = Some Warning) /\
     ((t < 98)%Z -> (s < 133)%Z -> banner t s = Some Normal)) /\
  (forall i est,
     evaluate i = Some est ->
     banner (temp i) (nedocsScoreCapped est) = Some (tier est)) /\
  (exists est,
     evaluate (mkScenarioInput 150000 98 100 FanZone) = Some est /\
     tier est = Override).
Proof.
  split; [exact warning_threshold_value|]. split; [|split].
  - intros t s. rewrite banner_eq. repeat split; intros.
    + destruct (Z.leb_spec 98 t); [reflexivity | lia].
    + destruct (Z.leb_spec 98 t); [lia|].
      destruct (Z.leb_spec 140 s); [reflexivity | lia].
    + destruct (Z.leb_spec 98 t); [lia|].
      destruct (Z.leb_spec 140 s); [lia|].
      destruct (Z.leb_spec 133 s); [reflexivity | lia].
    + destruct (Z.leb_spec 98 t); [lia|].
      destruct (Z.leb_spec 140 s); [lia|].
      destruct (Z.leb_spec 133 s); [lia | reflexivity].
  - intros i est H. apply (evaluate_Some i est H).
  - eexists. split; [vm_compute; reflexivity | reflexivity].
Qed.

(** C7. Scenario 1 of the specification (attendance 65000, 85 degrees,
    60% humidity, stadium): both multipliers are 1, the load is
    [6.5 * 15 = 97.5] and truncates to 97 patients, split 63 / 14 / 20,
    the raw and the capped score are 95 and the banner is the normal
    one. *)
Theorem scenario_1_values :
  heat_index_multiplier 85 60 = Some 1 /\
  venue_multiplier Stadium = 1 /\
  patient_load (mkScenarioInput 65000 85 60 Stadium) = Some (195 # 2) /\
  195 # 2 == 6.5 * 15 /\
  Qfloor (6.5 * 15) = 97%Z /\
  evaluate (mkScenarioInput 65000 85 60 Stadium)
  = Some (mkSurgeEstimate 97 63 14 20 95 95 Normal).
Proof.
  repeat split; vm_compute; reflexivity.
Qed.

(** Scenario 3 of the specification (attendance 10000, 60 degrees, 10%
    humidity, stadium): 15 patients, split 9 / 2 / 4, score 83. *)
Example scenario_3_values :
  evaluate (mkScenarioInput 10000 60 10 Stadium)
  = Some (mkSurgeEstimate 15 9 2 4 83 83 Normal).
Proof. vm_compute. reflexivity. Qed.

(** C8. With temperature, humidity and venue held fixed, a larger
    attendance never gives fewer patients: whenever the script computes
    both totals they are ordered, and a total computed for the larger
    attendance guarantees one for every smaller non-negative attendance. *)
Theorem total_patients_monotone_in_attendance (a1 a2 t h : Z) (v : string) :
  (a1 <= a2)%Z ->
  (forall n1 n2,
     total_patients (mkScenarioInput a1 t h v) = Some n1 ->
     total_patients (mkScenarioInput a2 t h v) = Some n2 ->
     (n1 <= n2)%Z) /\
  ((0 <= a1)%Z ->
   forall n2,
     total_patients (mkScenarioInput a2 t h v) = Some n2 ->
     exists n1,
       total_patients (mkScenarioInput a1 t h v) = Some n1 /\ (n1 <= n2)%Z).
Proof.
  intros Ha. split.
  - unfold total_patients. intros n1 n2 H1 H2.
    apply bind_Some in H1. destruct H1 as (p1 & Hp1 & H1).
    apply bind_Some in H2. destruct H2 as (p2 & Hp2 & H2).
    injection H1 as <-. injection H2 as <-.
    apply int_of_float_mono.
    exact (patient_load_mono_attendance a1 a2 t h v p1 p2 Ha Hp1 Hp2).
  - unfold total_patients. intros Ha0 n2 H2.
    apply bind_Some in H2. destruct H2 as (p2 & Hp2 & H2). injection H2 as <-.
    assert (Hm : exists m, heat_index_multiplier t h = Some m).
    { unfold patient_load in Hp2. cbn [temp humidity] in Hp2.
      apply bind_Some in Hp2. destruct Hp2 as (m & Hm & _). exists m. exact Hm. }
    destruct Hm as (m & Hm).
    destruct (patient_load_between (mkScenarioInput 0 t h v)
                (mkScenarioInput a1 t h v) (mkScenarioInput a2 t h v) 0 p2)
      as (p1 & Hp1 & _ & Hle);
      cbn [attendance temp humidity venue_type]; try lia; try apply Qle_refl.
    + exact (patient_load_empty t h v m Hm).
    + exact Hp2.
    + rewrite Hp1. cbn [bind]. eexists. split; [reflexivity|].
      apply int_of_float_mono, Hle.
Qed.

Lemma total_patients_monotone_in_attendance_witness :
  exists n1 n2,
    total_patients (mkScenarioInput 10000 88 65 FanZone) = Some n1 /\
    total_patients (mkScenarioInput 150000 88 65 FanZone) = Some n2 /\
    (n1 <= n2)%Z.
Proof.
  destruct (total_patients_monotone_in_attendance 10000 150000 88 65 FanZone)
    as [H _]; [lia|].
  eexists. eexists.
  split; [vm_compute; reflexivity|]. split; [vm_compute; reflexivity|].
  apply H; vm_compute; reflexivity.
Defined.

(** C5 does not hold of the product read in exact arithmetic.  At
    attendance 120000, 88 degrees, 60% humidity in the stadium the exact
    product [12 * 15 * 1.15] is the whole number 207; the doubles of
    line 35 fall just short of it, and the script reports 206 patients,
    not the floor of the formula. *)
Lemma total_patients_below_exact_floor :
  in_slider_range (mkScenarioInput 120000 88 60 Stadium) /\
  exact_load (mkScenarioInput 120000 88 60 Stadium) == 207 /\
  exact_total_patients (mkScenarioInput 120000 88 60 Stadium) = 207%Z /\
  total_patients (mkScenarioInput 120000 88 60 Stadium) = Some 206%Z /\
  total_patients (mkScenarioInput 120000 88 60 Stadium)
  <> Some (exact_total_patients (mkScenarioInput 120000 88 60 Stadium)).
Proof.
  assert (H : total_patients (mkScenarioInput 120000 88 60 Stadium) = Some 206%Z).
  { vm_compute. reflexivity. }
  split.
  { unfold in_slider_range. cbn. repeat split; try lia. left. reflexivity. }
  split; [vm_compute; reflexivity|]. split; [vm_compute; reflexivity|].
  split; [exact H|]. rewrite H. vm_compute. discriminate.
Qed.

(** C5. On every input within the slider ranges the total is the
    truncation toward zero, which is the floor, of the double the product
    [(attendance / 10000) * 15.0 * envMultiplier * venueMultiplier] of
    line 35 comes to, the venue multiplier being 2.0 for the fan zone and
    1.0 for the stadium.  That double lies within a relative [10^-15] of
    the product in exact arithmetic, and the total is the floor of the
    exact product, save that where the exact product is a whole number
    the total may be one less. *)
Theorem total_patients_near_exact_floor (i : ScenarioInput) :
  in_slider_range i ->
  venue_multiplier FanZone = 2 /\
  venue_multiplier Stadium = 1 /\
  exists p n,
    patient_load i = Some p /\
    total_patients i = Some n /\
    inject_Z n <= p /\ p < inject_Z n + 1 /\
    exact_load i * (1 - (1 # 1000000000000000)) <= p /\
    p <= exact_load i * (1 + (1 # 1000000000000000)) /\
    (n = exact_total_patients i \/
     (n = (exact_total_patients i - 1)%Z /\
      inject_Z (exact_total_patients i) == exact_load i)).
Proof.
  intros Hr. split; [reflexivity|]. split; [reflexivity|].
  destruct (total_patients_in_range i Hr) as (n & Hn & Hb).
  assert (Ha : (0 <= attendance i)%Z) by (destruct Hr as [[? ?] _]; lia).
  unfold total_patients in Hn. apply bind_Some in Hn.
  destruct Hn as (p & Hp & Hn). injection Hn as Hn.
  pose proof (patient_load_nonneg i p Ha Hp) as Hp0.
  destruct (floor_sandwich p Hp0) as [Hs1 Hs2]. rewrite Hn in Hs1, Hs2.
  destruct (LoadFacts.near_9_bound p (exact_load i)
              (LoadFacts.patient_load_near i p Ha Hp)) as [Hlo Hhi].
  pose proof (LoadFacts.exact_load_nonneg i Ha) as He0.
  assert (He1 : exact_load i <= 2000).
  { assert (Hn' : inject_Z n <= 1417).
    { change 1417 with (inject_Z 1417). rewrite <- Zle_Qle. lia. }
    lra. }
  destruct (LoadFacts.exact_load_millionths i) as (N & HN).
  exists p, n. split; [exact Hp|].
  split; [unfold total_patients; rewrite Hp; cbn [bind]; rewrite Hn; reflexivity|].
  split; [exact Hs1|]. split; [exact Hs2|].
  split; [exact Hlo|]. split; [exact Hhi|].
  rewrite <- Hn, (int_of_float_nonneg p Hp0). unfold exact_total_patients.
  apply (LoadFacts.floor_of_near p (exact_load i) N); assumption.
Qed.

Lemma total_patients_near_exact_floor_witness :
  in_slider_range (mkScenarioInput 65000 85 60 Stadium) /\
  exact_load (mkScenarioInput 65000 85 60 Stadium) == 97.5 /\
  exists p,
    patient_load (mkScenarioInput 65000 85 60 Stadium) = Some p /\
    total_patients (mkScenarioInput 65000 85 60 Stadium) = Some 97%Z /\
    97 <= p /\ p < 98.
Proof.
  assert (Hr : in_slider_range (mkScenarioInput 65000 85 60 Stadium)).
  { unfold in_slider_range. cbn. repeat split; try lia. left. reflexivity. }
  split; [exact Hr|]. split; [vm_compute; reflexivity|].
  destruct (total_patients_near_exact_floor (mkScenarioInput 65000 85 60 Stadium) Hr)
    as (_ & _ & p & n & Hp & Hn & H1 & H2 & _ & _ & H).
  assert (E : n = 97%Z).
  { destruct H as [H | [_ H]]; [exact H|].
    exfalso. vm_compute in H. discriminate. }
  subst n. exists p. repeat (split; [assumption|]). exact H2.
Defined.

(** C6. For every input with a non-negative attendance on which the
    script runs to completion, the raw score is
    [80 + (edTransports / 80) * 60], the division being by the fixed
    non-zero baseline capacity of 80, and the capped score is the smaller
    of the floor of the raw score and 200. *)
Theorem capped_score_formula (i : ScenarioInput) (est : SurgeEstimate) :
  (0 <= attendance i)%Z ->
  evaluate i = Some est ->
  BASELINE_ED_CAPACITY = 80%Z /\
  (exists q sb,
     int_truediv (edTransports est) BASELINE_ED_CAPACITY = Some q /\
     float_mul q 60 = Some sb /\
     float_add 80 sb = Some (nedocsScoreRaw est)) /\
  nedocsScoreCapped est = Z.min (int_of_float (nedocsScoreRaw est)) 200 /\
  nedocsScoreCapped est = Z.min (Qfloor (nedocsScoreRaw est)) 200.
Proof.
  intros Ha Hev.
  destruct (evaluate_Some i est Hev) as (Hn & Hon & Hacs & Hed & Hraw & Hs & _).
  pose proof (total_patients_nonneg i _ Ha Hn) as Hn0.
  destruct (buckets_le_total _ _ _ Hn0 Hon Hacs) as (_ & _ & Hle).
  assert (Hed0 : (0 <= edTransports est)%Z).
  { rewrite Hed. unfold ed_transports. lia. }
  pose proof (nedocs_raw_ge_80 _ _ Hed0 Hraw) as Hr80.
  destruct (nedocs_score_raw _ _ Hs) as (r & Hr & Hcap).
  rewrite Hraw in Hr. injection Hr as <-.
  split; [reflexivity|]. split; [|split].
  - unfold nedocs_raw, surge_burden, float_mul_int, int_add_float in Hraw.
    rewrite float_of_int_60, float_of_int_80 in Hraw. cbn [bind] in Hraw.
    apply bind_Some in Hraw. destruct Hraw as (sb & Hsb & Hraw).
    apply bind_Some in Hsb. destruct Hsb as (q & Hq & Hsb).
    exists q, sb. repeat split; assumption.
  - exact Hcap.
  - rewrite Hcap. rewrite int_of_float_nonneg by lra. reflexivity.
Qed.

Lemma capped_score_formula_witness :
  nedocsScoreCapped (mkSurgeEstimate 97 63 14 20 95 95 Normal)
  = Z.min (Qfloor (nedocsScoreRaw (mkSurgeEstimate 97 63 14 20 95 95 Normal))) 200.
Proof.
  destruct (capped_score_formula (mkScenarioInput 65000 85 60 Stadium)
              (mkSurgeEstimate 97 63 14 20 95 95 Normal))
    as (_ & _ & _ & H); [cbn; lia | vm_compute; reflexivity | exact H].
Defined.

(** C4 does not extend to every integer.  At a temperature beyond the
    range of doubles the offset [temp - 85 = 2^1024] has no double, Python
    raises [OverflowError] at [(temp - 85) * 0.05], and line 29 yields no
    multiplier at all. *)
Lemma heat_index_multiplier_overflows :
  float_of_int ((2 ^ 1024 + 85) - 85) = None /\
  heat_index_multiplier (2 ^ 1024 + 85) 60 = None /\
  ~ (exists m, heat_index_multiplier (2 ^ 1024 + 85) 60 = Some m /\ 1 <= m).
Proof.
  assert (H : heat_index_multiplier (2 ^ 1024 + 85) 60 = None).
  { vm_compute. reflexivity. }
  split; [vm_compute; reflexivity|]. split; [exact H|].
  intros (m & Hm & _). rewrite H in Hm. discriminate.
Qed.

(** C4. For every temperature and humidity whose offsets from 85 and 60
    convert to a double (any integers of magnitude below about 1.8e308,
    plausible or not), line 29 yields the multiplier
    [1.0 + max(0, (temp - 85) * 0.05) + max(0, (humidity - 60) * 0.01)],
    each operation rounded to double precision; it is at least 1.0, and a
    value at or below its reference point contributes zero. *)
Theorem heat_index_multiplier_formula (t h : Z) (x y : pyfloat) :
  float_of_int (t - 85) = Some x ->
  float_of_int (h - 60) = Some y ->
  exists m,
    heat_index_multiplier t h = Some m /\
    m = Binary64.round
          (Binary64.round (1 + max0 (Binary64.round (x * float_literal 0.05)))
           + max0 (Binary64.round (y * float_literal 0.01))) /\
    1 <= m /\
    ((t <= 85)%Z -> max0 (Binary64.round (x * float_literal 0.05)) = 0) /\
    ((h <= 60)%Z -> max0 (Binary64.round (y * float_literal 0.01)) = 0) /\
    ((t <= 85)%Z -> (h <= 60)%Z -> m = 1).
Proof.
  intros Hx Hy.
  destruct (heat_index_multiplier_defined t h x y Hx Hy)
    as (tx & s & hy & m & Htx & Hs & Hhy & Hm & Hdef).
  pose proof (heat_index_multiplier_ge_1 t h m Hdef) as Hge.
  unfold float_mul, float_add in Htx, Hs, Hhy, Hm.
  apply rounded_Some in Htx, Hs, Hhy, Hm.
  destruct Htx as [Etx _], Hs as [Es _], Hhy as [Ehy _], Hm as [Em _].
  assert (Ht0 : (t <= 85)%Z -> max0 tx = 0).
  { intros Ht. apply max0_nonpos. rewrite Etx. apply round_nonpos.
    pose proof (float_of_int_nonpos (t - 85) x ltac:(lia) Hx) as Hx0.
    assert (H05 : 0 <= float_literal 0.05) by (rewrite literal_0_05; discriminate).
    assert (0 <= (- x) * float_literal 0.05) by (apply Qmult_le_0_compat; lra).
    lra. }
  assert (Hh0 : (h <= 60)%Z -> max0 hy = 0).
  { intros Hh. apply max0_nonpos. rewrite Ehy. apply round_nonpos.
    pose proof (float_of_int_nonpos (h - 60) y ltac:(lia) Hy) as Hy0.
    assert (H01 : 0 <= float_literal 0.01) by (rewrite literal_0_01; discriminate).
    assert (0 <= (- y) * float_literal 0.01) by (apply Qmult_le_0_compat; lra).
    lra. }
  exists m. split; [exact Hdef|]. subst tx hy.
  split; [rewrite Em, Es; reflexivity|]. split; [exact Hge|].
  split; [exact Ht0|]. split; [exact Hh0|].
  intros Ht Hh. rewrite Em, Es, (Ht0 Ht), (Hh0 Hh).
  rewrite (round_ext (1 + 0) 1) by ring. rewrite round_1.
  rewrite (round_ext (1 + 0) 1) by ring. exact round_1.
Qed.

Lemma heat_index_multiplier_formula_witness :
  exists m, heat_index_multiplier 88 65 = Some m /\ 1 <= m.
Proof.
  destruct (heat_index_multiplier_formula 88 65 3 5)
    as (m & Hm & _ & Hge & _);
    [vm_compute; reflexivity | vm_compute; reflexivity |].
  exists m. split; assumption.
Defined.

(** C10 does not extend to every non-negative integer.  For
    [10^17 + 7] patients, a total beyond the precision of doubles, the
    conversion to a double drops the 7, the two truncated buckets are
    those of [10^17], and the remainder exceeds 20% of the total by more
    than 2. *)
Lemma ed_transports_share_exceeds :
  onsite_treat (10 ^ 17 + 7) = Some 65000000000000000%Z /\
  acs_telehealth (10 ^ 17 + 7) = Some 15000000000000000%Z /\
  ed_transports (10 ^ 17 + 7) 65000000000000000 15000000000000000
  = 20000000000000007%Z /\
  ~ (inject_Z 20000000000000007 <= 0.20 * inject_Z (10 ^ 17 + 7) + 2).
Proof.
  split; [vm_compute; reflexivity|]. split; [vm_compute; reflexivity|].
  split; [vm_compute; reflexivity|].
  intros H. vm_compute in H. apply H. reflexivity.
Qed.

(** C10. For every total from 0 to 10^14 (the slider ranges give at most
    1417) both buckets are computed and the remainder lies between 20% of
    the total and 20% of the total plus 2; and for every non-negative
    total for which both buckets are computed, the remainder is not
    negative. *)
Theorem ed_transports_share (n : Z) :
  (0 <= n)%Z ->
  (forall on acs,
     onsite_treat n = Some on -> acs_telehealth n = Some acs ->
     (0 <= ed_transports n on acs)%Z) /\
  ((n <= 10 ^ 14)%Z ->
   exists on acs,
     onsite_treat n = Some on /\ acs_telehealth n = Some acs /\
     0.20 * inject_Z n <= inject_Z (ed_transports n on acs) /\
     inject_Z (ed_transports n on acs) <= 0.20 * inject_Z n + 2).
Proof.
  intros Hn. split.
  - intros on acs Hon Hacs.
    destruct (buckets_le_total n on acs Hn Hon Hacs) as (_ & _ & H).
    unfold ed_transports. lia.
  - intros Hn14.
    destruct (onsite_treat_defined n ltac:(lia)) as (on & Hon).
    destruct (acs_telehealth_defined n ltac:(lia)) as (acs & Hacs).
    pose proof (onsite_treat_bounds n on ltac:(lia) Hon) as Hb1.
    pose proof (acs_telehealth_bounds n acs ltac:(lia) Hacs) as Hb2.
    exists on, acs. split; [exact Hon|]. split; [exact Hacs|].
    unfold ed_transports.
    assert (H1 : (4 * n <= 20 * (n - on - acs))%Z) by lia.
    assert (H2 : (20 * (n - on - acs) <= 4 * n + 40)%Z) by lia.
    rewrite Zle_Qle in H1. rewrite Zle_Qle in H2.
    rewrite !inject_Z_mult in H1. rewrite inject_Z_plus, !inject_Z_mult in H2.
    change (inject_Z 4) with 4 in H1, H2. change (inject_Z 20) with 20 in H1, H2.
    change (inject_Z 40) with 40 in H2.
    split; lra.
Qed.

Lemma ed_transports_share_witness :
  exists on acs,
    onsite_treat 97 = Some on /\ acs_telehealth 97 = Some acs /\
    0.20 * inject_Z 97 <= inject_Z (ed_transports 97 on acs) /\
    inject_Z (ed_transports 97 on acs) <= 0.20 * inject_Z 97 + 2.
Proof.
  destruct (ed_transports_share 97) as [_ H]; [lia|].
  apply H. vm_compute. discriminate.
Defined.

(* ================================================================= *)
(** ** More on rounding: doubles are fixed points, doubling is exact *)

Module ExactFacts.
Import Binary64 Binary64Facts RneFacts RoundFacts RoundedFacts.

Lemma ilog2_unique (x : Q) (e : Z) :
  pow2 e <= x -> x < pow2 (e + 1) -> ilog2 x = e.
Proof.
  intros Hlo Hhi.
  assert (Hx : 0 < x) by (eapply Qlt_le_trans; [apply pow2_pos | exact Hlo]).
  destruct (ilog2_spec x Hx) as [Hl Hh].
  assert (H1 : pow2 e < pow2 (ilog2 x + 1)) by (eapply Qle_lt_trans; eassumption).
  assert (H2 : pow2 (ilog2 x) < pow2 (e + 1)) by (eapply Qle_lt_trans; eassumption).
  apply pow2_lt_inv in H1, H2. lia.
Qed.

Lemma rne_ext (x y : Q) : x == y -> rne x = rne y.
Proof.
  intros H. apply Z.le_antisymm; apply rne_mono; rewrite H; apply Qle_refl.
Qed.

Lemma pow2_nonzero (z : Z) : ~ pow2 z == 0.
Proof. intros C. pose proof (pow2_pos z) as H. rewrite C in H. discriminate. Qed.

(** A significand of at most 53 bits at any scale is its own rounding. *)
Lemma round_pos_significand (M s : Z) :
  (2 ^ 52 <= M <= 2 ^ 53)%Z ->
  round_pos (inject_Z M * pow2 s) == inject_Z M * pow2 s.
Proof.
  intros [Hlo Hhi]. pose proof (pow2_pos s) as Hs.
  destruct (Z.eq_dec M (2 ^ 53)) as [-> | Hne].
  - assert (E : inject_Z (2 ^ 53) * pow2 s == pow2 (s + 53)).
    { rewrite pow2_add, (pow2_inject 53) by lia. apply Qmult_comm. }
    assert (He : ilog2 (inject_Z (2 ^ 53) * pow2 s) = (s + 53)%Z).
    { apply ilog2_unique; rewrite E; [apply Qle_refl | apply pow2_lt; lia]. }
    unfold round_pos. rewrite He. unfold prec.
    replace (s + 53 - (53 - 1))%Z with (s + 1)%Z by lia.
    assert (Ediv : inject_Z (2 ^ 53) * pow2 s / pow2 (s + 1) == inject_Z (2 ^ 52)).
    { rewrite pow2_add. change (pow2 1) with 2.
      change (inject_Z (2 ^ 53)) with (2 * inject_Z (2 ^ 52)).
      field. exact (pow2_nonzero s). }
    rewrite (rne_ext _ _ Ediv), rne_Z, pow2_add.
    change (pow2 1) with 2. change (inject_Z (2 ^ 53)) with (2 * inject_Z (2 ^ 52)).
    ring.
  - assert (He : ilog2 (inject_Z M * pow2 s) = (s + 52)%Z).
    { apply ilog2_unique.
      - rewrite Z.add_comm, pow2_add, (pow2_inject 52) by lia.
        apply Qmult_le_compat_r; [|apply Qlt_le_weak, Hs].
        rewrite <- Zle_Qle. exact Hlo.
      - replace (s + 52 + 1)%Z with (53 + s)%Z by lia.
        rewrite pow2_add, (pow2_inject 53) by lia.
        apply Qmult_lt_compat_r; [exact Hs|].
        rewrite <- Zlt_Qlt. lia. }
    unfold round_pos. rewrite He. unfold prec.
    replace (s + 52 - (53 - 1))%Z with s by lia.
    assert (Ediv : inject_Z M * pow2 s / pow2 s == inject_Z M).
    { field. exact (pow2_nonzero s). }
    rewrite (rne_ext _ _ Ediv), rne_Z. reflexivity.
Qed.

Lemma rne_scaled_range (x : Q) :
  0 < x ->
  (2 ^ 52 <= rne (x / pow2 (ilog2 x - (prec - 1))) <= 2 ^ 53)%Z.
Proof.
  intros Hx. destruct (scaled_bounds x Hx) as [Hlo Hhi].
  apply rne_mono in Hlo, Hhi. rewrite rne_Z in Hlo, Hhi. split; assumption.
Qed.

Lemma round_pos_idem (x : Q) : 0 < x -> round_pos (round_pos x) == round_pos x.
Proof.
  intros Hx. unfold round_pos at 2 3.
  apply round_pos_significand, rne_scaled_range, Hx.
Qed.

Lemma round_pos_ext (x y : Q) : 0 < x -> x == y -> round_pos x == round_pos y.
Proof.
  intros Hx H. assert (Hy : 0 < y) by (rewrite <- H; exact Hx).
  apply Qle_antisym; apply round_pos_mono; try assumption;
    rewrite H; apply Qle_refl.
Qed.

(** Rounding a double changes nothing. *)
Lemma round_idem (x : Q) : round (round x) = round x.
Proof.
  unfold round at 1 3. apply Qred_complete. rewrite <- !round_unfold.
  destruct (Q_dec x 0) as [[Hx | Hx] | Hx].
  - assert (Hp : 0 < - x) by lra.
    pose proof (round_pos_pos _ Hp) as Hy.
    pose proof (round_of_neg x Hx) as Er.
    assert (Hr : round x < 0) by lra.
    pose proof (round_of_neg _ Hr) as Err.
    assert (E : round_pos (- round x) == round_pos (round_pos (- x))).
    { apply round_pos_ext; lra. }
    pose proof (round_pos_idem _ Hp) as Ei.
    lra.
  - pose proof (round_pos_pos _ Hx) as Hy.
    pose proof (round_of_pos x Hx) as Er.
    assert (Hr : 0 < round x) by lra.
    pose proof (round_of_pos _ Hr) as Err.
    assert (E : round_pos (round x) == round_pos (round_pos x)).
    { apply round_pos_ext; lra. }
    pose proof (round_pos_idem _ Hx) as Ei.
    lra.
  - pose proof (round_of_zero x Hx) as Er.
    pose proof (round_of_zero _ Er). lra.
Qed.

(** Doubling is exact. *)
Lemma round_pos_double (x : Q) : 0 < x -> round_pos (2 * x) == 2 * round_pos x.
Proof.
  intros Hx. destruct (ilog2_spec x Hx) as [Hlo Hhi].
  assert (He : ilog2 (2 * x) = (ilog2 x + 1)%Z).
  { apply ilog2_unique.
    - rewrite Z.add_comm, pow2_add. change (pow2 1) with 2. lra.
    - rewrite (Z.add_comm (ilog2 x + 1) 1), pow2_add. change (pow2 1) with 2. lra. }
  unfold round_pos. rewrite He.
  replace (ilog2 x + 1 - (prec - 1))%Z with (1 + (ilog2 x - (prec - 1)))%Z by lia.
  set (s := (ilog2 x - (prec - 1))%Z).
  assert (Ediv : 2 * x / pow2 (1 + s) == x / pow2 s).
  { rewrite pow2_add. change (pow2 1) with 2. field. exact (pow2_nonzero s). }
  rewrite (rne_ext _ _ Ediv), pow2_add. change (pow2 1) with 2. ring.
Qed.

Lemma round_double (x : Q) : round (2 * x) == 2 * round x.
Proof.
  destruct (Q_dec x 0) as [[Hx | Hx] | Hx].
  - assert (H2 : 2 * x < 0) by lra.
    rewrite (round_of_neg _ H2), (round_of_neg x Hx).
    assert (E : round_pos (- (2 * x)) == round_pos (2 * - x)).
    { apply round_pos_ext; [lra | ring]. }
    rewrite E, round_pos_double by lra. ring.
  - assert (H2 : 0 < 2 * x) by lra.
    rewrite (round_of_pos _ H2), (round_of_pos x Hx). apply round_pos_double, Hx.
  - rewrite (round_of_zero x Hx), (round_of_zero (2 * x)) by (rewrite Hx; reflexivity).
    reflexivity.
Qed.

End ExactFacts.

Module WeatherFacts.
Import Binary64 Binary64Facts RneFacts RoundFacts RoundedFacts PyFacts.
Import ScriptFacts AllocFacts ScoreFacts PipelineFacts HeatFacts ExactFacts.
Import ExactScore.

(** At or below both reference points the multiplier is exactly 1.0. *)
Lemma heat_index_multiplier_cool (t h : Z) (x y : Q) :
  (t <= 85)%Z -> (h <= 60)%Z ->
  float_of_int (t - 85) = Some x -> float_of_int (h - 60) = Some y ->
  heat_index_multiplier t h = Some 1.
Proof.
  intros Ht Hh Hx Hy.
  destruct (heat_index_multiplier_defined t h x y Hx Hy)
    as (tx & s & hy & m & Htx & Hs & Hhy & Hm & Hdef).
  rewrite Hdef. f_equal.
  assert (Et : max0 tx = 0).
  { apply max0_nonpos.
    exact (int_mul_float_nonpos (t - 85) _ tx literal_0_05_nonneg ltac:(lia)
             ltac:(unfold int_mul_float; rewrite Hx; exact Htx)). }
  assert (Eh : max0 hy = 0).
  { apply max0_nonpos.
    exact (int_mul_float_nonpos (h - 60) _ hy literal_0_01_nonneg ltac:(lia)
             ltac:(unfold int_mul_float; rewrite Hy; exact Hhy)). }
  rewrite Et in Hs. rewrite Eh in Hm.
  unfold float_add in Hs, Hm.
  rewrite (rounded_ext (1 + 0) 1) in Hs by ring. rewrite rounded_1 in Hs.
  injection Hs as <-.
  rewrite (rounded_ext (1 + 0) 1) in Hm by ring. rewrite rounded_1 in Hm.
  injection Hm as <-. reflexivity.
Qed.

(** Two inputs with the same total and the same banner chain give the
    same result. *)
Lemma evaluate_congr (i j : ScenarioInput) :
  total_patients i = total_patients j ->
  (forall s, banner (temp i) s = banner (temp j) s) ->
  evaluate i = evaluate j.
Proof.
  intros Ht Hb. unfold evaluate. rewrite Ht.
  destruct (total_patients j) as [n|]; [|reflexivity]. cbn [bind].
  destruct (onsite_treat n) as [on|]; [|reflexivity]. cbn [bind].
  destruct (acs_telehealth n) as [acs|]; [|reflexivity]. cbn [bind]. cbv zeta.
  destruct (nedocs_raw (ed_transports n on acs)) as [r|]; [|reflexivity]. cbn [bind].
  destruct (nedocs_score (ed_transports n on acs)) as [s|]; [|reflexivity]. cbn [bind].
  rewrite Hb. reflexivity.
Qed.

(** A double times [1.0] is itself, a double times [2.0] its double. *)
Lemma float_mul_1_r (z y : Q) :
  rounded z = Some y -> float_mul y 1 = Some y.
Proof.
  intros H. unfold float_mul. apply rounded_Some in H. destruct H as [-> Hfin].
  rewrite (rounded_ext (round z * 1) (round z)) by ring.
  apply rounded_Some. rewrite round_idem. split; [reflexivity | exact Hfin].
Qed.

Lemma float_mul_2_r (z y d : Q) :
  rounded z = Some y -> float_mul y 2 = Some d -> d == 2 * y.
Proof.
  intros H Hd. unfold float_mul in Hd.
  apply rounded_Some in H, Hd. destruct H as [-> _], Hd as [-> _].
  rewrite (round_ext (round z * 2) (2 * round z)) by ring.
  rewrite round_double, round_idem. reflexivity.
Qed.

Lemma int_of_float_ext (x y : Q) : x == y -> int_of_float x = int_of_float y.
Proof.
  intros H. apply Z.le_antisymm; apply int_of_float_mono; rewrite H; apply Qle_refl.
Qed.

End WeatherFacts.

(* ================================================================= *)
(** ** Further properties of the script *)

Import WeatherFacts ExactFacts ExactScore.

(** X1. The heat multiplier of line 29 never decreases when the
    temperature or the humidity rises: if it is computed at two weather
    points, one at or above the other in both readings, the values are in
    the same order, and it is computed everywhere in between. *)
Theorem heat_index_multiplier_monotone (t1 t2 h1 h2 : Z) (m1 m2 : pyfloat) :
  (t1 <= t2)%Z -> (h1 <= h2)%Z ->
  heat_index_multiplier t1 h1 = Some m1 ->
  heat_index_multiplier t2 h2 = Some m2 ->
  m1 <= m2 /\
  forall t h, (t1 <= t <= t2)%Z -> (h1 <= h <= h2)%Z ->
    exists m, heat_index_multiplier t h = Some m /\ m1 <= m /\ m <= m2.
Proof.
  intros Ht Hh H1 H2. split.
  - destruct (heat_index_multiplier_between t1 t1 t2 h1 h1 h2 m1 m2
                ltac:(lia) ltac:(lia) H1 H2) as (m & Hm & _ & Hle).
    rewrite H1 in Hm. injection Hm as <-. exact Hle.
  - intros t h Ht' Hh'.
    exact (heat_index_multiplier_between t1 t t2 h1 h h2 m1 m2 Ht' Hh' H1 H2).
Qed.

Lemma heat_index_multiplier_monotone_witness :
  exists m1 m2,
    heat_index_multiplier 60 10 = Some m1 /\
    heat_index_multiplier 120 100 = Some m2 /\ m1 <= m2.
Proof.
  eexists. eexists.
  split; [vm_compute; reflexivity|]. split; [vm_compute; reflexivity|].
  apply (heat_index_multiplier_monotone 60 120 10 100); try lia;
    vm_compute; reflexivity.
Defined.

(** X2. Below the reference points the weather has no effect: for any
    temperature of at most 85 and humidity of at most 60 (down to
    [-2^1000]) the script gives, for every attendance and venue, exactly
    the result it gives at 85 degrees and 60%. *)
Theorem cool_weather_plateau (a t h : Z) (v : string) :
  (- 2 ^ 1000 <= t <= 85)%Z -> (- 2 ^ 1000 <= h <= 60)%Z ->
  heat_index_multiplier t h = Some 1 /\
  evaluate (mkScenarioInput a t h v) = evaluate (mkScenarioInput a 85 60 v).
Proof.
  intros Ht Hh.
  assert (Hpow : (0 < 2 ^ 1000 /\ 2 ^ 1000 + 85 <= 2 ^ 1023)%Z).
  { split; vm_compute; [reflexivity | discriminate]. }
  destruct (float_of_int_defined (t - 85)) as (x & Hx); [lia|].
  destruct (float_of_int_defined (h - 60)) as (y & Hy); [lia|].
  pose proof (heat_index_multiplier_cool t h x y ltac:(lia) ltac:(lia) Hx Hy) as Hm.
  split; [exact Hm|].
  apply evaluate_congr.
  - unfold total_patients, patient_load. cbn [attendance temp humidity venue_type].
    rewrite Hm. replace (heat_index_multiplier 85 60) with (Some (1 : pyfloat))
      by (vm_compute; reflexivity). reflexivity.
  - intros s. cbn [temp]. rewrite !banner_eq.
    destruct (Z.leb_spec 98 t); [lia|]. reflexivity.
Qed.

Lemma cool_weather_plateau_witness :
  evaluate (mkScenarioInput 65000 60 10 Stadium)
  = evaluate (mkScenarioInput 65000 85 60 Stadium).
Proof.
  apply (cool_weather_plateau 65000 60 10 Stadium); vm_compute; split; discriminate.
Defined.

(** X3. Line 35 is monotone in every input: from a non-negative
    attendance, raising the attendance, the temperature or the humidity,
    or moving from any venue to the fan zone, never lowers the total
    number of patients (whenever both totals are computed). *)
Theorem total_patients_monotone (i1 i2 : ScenarioInput) (n1 n2 : Z) :
  (0 <= attendance i1 <= attendance i2)%Z ->
  (temp i1 <= temp i2)%Z ->
  (humidity i1 <= humidity i2)%Z ->
  venue_type i1 = venue_type i2 \/ venue_type i2 = FanZone ->
  total_patients i1 = Some n1 ->
  total_patients i2 = Some n2 ->
  (n1 <= n2)%Z.
Proof.
  intros Ha Ht Hh Hv H1 H2. unfold total_patients in H1, H2.
  apply bind_Some in H1. destruct H1 as (p1 & Hp1 & H1).
  apply bind_Some in H2. destruct H2 as (p2 & Hp2 & H2).
  injection H1 as <-. injection H2 as <-.
  apply int_of_float_mono.
  destruct (patient_load_between i1 i1 i2 p1 p2) as (p & Hp & _ & Hle);
    try lia; try assumption; try apply Qle_refl.
  - destruct Hv as [-> | ->]; [apply Qle_refl|].
    change (venue_multiplier FanZone) with 2.
    apply (venue_multiplier_range (venue_type i1)).
  - rewrite Hp1 in Hp. injection Hp as <-. exact Hle.
Qed.

Lemma total_patients_monotone_witness :
  exists n1 n2,
    total_patients (mkScenarioInput 40000 80 55 Stadium) = Some n1 /\
    total_patients (mkScenarioInput 45000 99 70 FanZone) = Some n2 /\
    (n1 <= n2)%Z.
Proof.
  eexists. eexists.
  split; [vm_compute; reflexivity|]. split; [vm_compute; reflexivity|].
  apply (total_patients_monotone (mkScenarioInput 40000 80 55 Stadium)
           (mkScenarioInput 45000 99 70 FanZone));
    cbn [attendance temp humidity venue_type]; try lia;
    try (right; reflexivity); vm_compute; reflexivity.
Defined.

(** X4. The venue multiplier of line 32 acts exactly: the fan-zone load is
    precisely twice the stadium load, with no rounding, so the fan-zone
    total is twice the stadium total or one more; and every venue label
    other than the fan-zone one counts as the stadium. *)
Theorem fan_zone_doubles_the_load (a t h : Z) (ps pf : pyfloat) :
  (0 <= a)%Z ->
  patient_load (mkScenarioInput a t h Stadium) = Some ps ->
  patient_load (mkScenarioInput a t h FanZone) = Some pf ->
  pf == 2 * ps /\
  (int_of_float pf = 2 * int_of_float ps \/
   int_of_float pf = 2 * int_of_float ps + 1)%Z /\
  forall v, v <> FanZone ->
    patient_load (mkScenarioInput a t h v) = Some ps.
Proof.
  intros Ha Hs Hf.
  pose proof (patient_load_nonneg (mkScenarioInput a t h Stadium) ps Ha Hs) as Hs0.
  unfold patient_load in Hs, Hf. cbn [attendance temp humidity venue_type] in Hs, Hf.
  apply bind_Some in Hs. destruct Hs as (m & Hm & Hs).
  apply bind_Some in Hs. destruct Hs as (q & Hq & Hs).
  apply bind_Some in Hs. destruct Hs as (p1 & Hp1 & Hs).
  apply bind_Some in Hs. destruct Hs as (p2 & Hp2 & Hs).
  rewrite Hm in Hf. cbn [bind] in Hf. rewrite Hq in Hf. cbn [bind] in Hf.
  rewrite Hp1 in Hf. cbn [bind] in Hf. rewrite Hp2 in Hf. cbn [bind] in Hf.
  change (venue_multiplier Stadium) with 1 in Hs.
  change (venue_multiplier FanZone) with 2 in Hf.
  unfold float_mul in Hp2.
  rewrite (float_mul_1_r _ _ Hp2) in Hs. injection Hs as <-.
  pose proof (float_mul_2_r _ _ _ Hp2 Hf) as E.
  split; [exact E|]. split.
  - rewrite (int_of_float_ext _ _ E).
    assert (H2 : 0 <= 2 * p2) by lra.
    rewrite (int_of_float_nonneg _ H2), (int_of_float_nonneg _ Hs0).
    pose proof (Qfloor_le p2) as F1. pose proof (Qlt_floor p2) as F2.
    pose proof (Qfloor_le (2 * p2)) as G1. pose proof (Qlt_floor (2 * p2)) as G2.
    rewrite inject_Z_plus in F2, G2.
    change (inject_Z 1) with 1 in F2, G2.
    assert (L : inject_Z (2 * Qfloor p2 - 1) < inject_Z (Qfloor (2 * p2))).
    { unfold Zminus. rewrite inject_Z_plus, inject_Z_mult.
      change (inject_Z 2) with 2. change (inject_Z (- (1))) with (- (1)). lra. }
    assert (U : inject_Z (Qfloor (2 * p2)) < inject_Z (2 * Qfloor p2 + 2)).
    { rewrite inject_Z_plus, inject_Z_mult.
      change (inject_Z 2) with 2. lra. }
    rewrite <- Zlt_Qlt in L, U. lia.
  - intros v Hv. unfold patient_load. cbn [attendance temp humidity venue_type].
    rewrite Hm. cbn [bind]. rewrite Hq. cbn [bind]. rewrite Hp1. cbn [bind].
    unfold float_mul at 1. rewrite Hp2. cbn [bind].
    unfold venue_multiplier.
    replace (String.eqb v "Fan Zone (Unbounded)") with false.
    + exact (float_mul_1_r _ _ Hp2).
    + symmetry. apply String.eqb_neq. exact Hv.
Qed.

Lemma fan_zone_doubles_the_load_witness :
  exists ps pf,
    patient_load (mkScenarioInput 65000 88 65 Stadium) = Some ps /\
    patient_load (mkScenarioInput 65000 88 65 FanZone) = Some pf /\
    pf == 2 * ps.
Proof.
  eexists. eexists.
  split; [vm_compute; reflexivity|]. split; [vm_compute; reflexivity|].
  apply (fan_zone_doubles_the_load 65000 88 65); [lia | | ];
    vm_compute; reflexivity.
Defined.

Module ScoreTable.
Import Binary64 Binary64Facts RneFacts RoundFacts RoundedFacts PyFacts.
Import ScriptFacts AllocFacts ScoreFacts PipelineFacts HeatFacts ExactFacts ExactScore.

Lemma nedocs_score_0 : nedocs_score 0 = Some 80%Z.
Proof. vm_compute. reflexivity. Qed.

Lemma nedocs_score_huge : nedocs_score (2 ^ 1000) = Some 200%Z.
Proof. vm_compute. reflexivity. Qed.

Lemma nedocs_score_minus_108 : nedocs_score (-108) = Some (-1)%Z.
Proof. vm_compute. reflexivity. Qed.

(** The capped score of a non-negative transport count, in integers. *)
Lemma nedocs_score_closed_form (ed : Z) :
  (0 <= ed <= 2 ^ 1000)%Z ->
  nedocs_score ed = Some (Z.min ((320 + 3 * ed) / 4) 200).
Proof.
  intros [H0 Hhi].
  destruct (Z_le_gt_dec ed 285) as [Hs | Hl].
  - pose proof (proj1 (forallb_forall _ _) score_exact_upto_285 ed
                  (In_Zrange 0 ed 286 ltac:(lia))) as H.
    unfold score_exact in H. unfold nedocs_score.
    destruct (nedocs_uncapped ed) as [s|]; [|discriminate].
    apply Z.eqb_eq in H. rewrite H. reflexivity.
  - destruct (nedocs_score_between 285 ed (2 ^ 1000) 200 200 ltac:(lia)
                nedocs_score_285 nedocs_score_huge) as (s & Hs & Hr).
    rewrite Hs. f_equal. Z.div_mod_to_equations. lia.
Qed.

End ScoreTable.

Import ScoreTable ExactScore.

(** X5. Rounding never shifts the score: for every transport count from
    0 up to 2^1000 lines 46-50 yield exactly
    [min(floor(80 + ed / 80 * 60), 200)] in exact arithmetic. *)
Theorem capped_score_is_exact (ed : Z) :
  (0 <= ed <= 2 ^ 1000)%Z ->
  nedocs_score ed
  = Some (Z.min (Qfloor (80 + inject_Z ed / 80 * 60)) 200).
Proof.
  intros H. rewrite (nedocs_score_closed_form ed H). f_equal. f_equal.
  unfold Qfloor, Qdiv, Qmult, Qplus, Qinv, inject_Z. cbn [Qnum Qden].
  Z.div_mod_to_equations. lia.
Qed.

Lemma capped_score_is_exact_witness :
  nedocs_score 20 = Some (Z.min (Qfloor (80 + inject_Z 20 / 80 * 60)) 200).
Proof.
  apply (capped_score_is_exact 20). vm_compute. split; discriminate.
Defined.

(** X6. More transports never lower the score, over all integers; and the
    score is capped from above only: a transport count of -108 or less
    gives a negative score. *)
Theorem nedocs_score_monotone (e1 e2 s1 s2 : Z) :
  (e1 <= e2)%Z ->
  nedocs_score e1 = Some s1 ->
  nedocs_score e2 = Some s2 ->
  (s1 <= s2)%Z /\ ((e2 <= -108)%Z -> (s2 < 0)%Z).
Proof.
  intros He H1 H2. split.
  - destruct (nedocs_score_between e1 e1 e2 s1 s2 ltac:(lia) H1 H2)
      as (s & Hs & _ & Hle).
    rewrite H1 in Hs. injection Hs as <-. exact Hle.
  - intros Hneg.
    destruct (nedocs_score_between e2 e2 (-108) s2 (-1) ltac:(lia) H2
                nedocs_score_minus_108) as (s & Hs & _ & Hle).
    rewrite H2 in Hs. injection Hs as <-. lia.
Qed.

Lemma nedocs_score_monotone_witness :
  exists s1 s2,
    nedocs_score (-120) = Some s1 /\ nedocs_score (-108) = Some s2 /\
    (s1 <= s2)%Z /\ (s2 < 0)%Z.
Proof.
  eexists. eexists.
  split; [vm_compute; reflexivity|]. split; [vm_compute; reflexivity|].
  destruct (nedocs_score_monotone (-120) (-108) (-10) (-1)) as [H1 H2];
    [lia | vm_compute; reflexivity | vm_compute; reflexivity |].
  split; [exact H1 | apply H2; lia].
Defined.

(** X7. The banner in terms of transports: below 98 degrees the chain
    shows the normal banner up to 70 transports, the warning from 71 to
    79, and the critical one from 80 on, that is exactly from the
    baseline capacity of line 10; the cap of 200 is reached exactly from
    160 transports on. *)
Theorem banner_by_transports (ed : Z) :
  (0 <= ed <= 2 ^ 1000)%Z ->
  exists s,
    nedocs_score ed = Some s /\
    ((CRITICAL_NEDOCS_THRESHOLD <= s)%Z <-> (BASELINE_ED_CAPACITY <= ed)%Z) /\
    (s = 200%Z <-> (160 <= ed)%Z) /\
    forall t, (t < 98)%Z ->
      banner t s = Some (if (ed <? 71)%Z then Normal
                         else if (ed <? BASELINE_ED_CAPACITY)%Z then Warning
                         else Critical).
Proof.
  intros H. exists (Z.min ((320 + 3 * ed) / 4) 200).
  split; [exact (nedocs_score_closed_form ed H)|].
  unfold CRITICAL_NEDOCS_THRESHOLD, BASELINE_ED_CAPACITY.
  split; [split; intros; Z.div_mod_to_equations; lia|].
  split; [split; intros; Z.div_mod_to_equations; lia|].
  intros t Ht. rewrite banner_eq.
  destruct (Z.leb_spec 98 t); [lia|].
  destruct (Z.ltb_spec ed 71); destruct (Z.ltb_spec ed 80);
    destruct (Z.leb_spec 140 (Z.min ((320 + 3 * ed) / 4) 200));
    destruct (Z.leb_spec 133 (Z.min ((320 + 3 * ed) / 4) 200));
    try reflexivity; exfalso; Z.div_mod_to_equations; lia.
Qed.

Lemma banner_by_transports_witness :
  exists s, nedocs_score 75 = Some s /\ banner 90 s = Some Warning.
Proof.
  destruct (banner_by_transports 75) as (s & Hs & _ & _ & Hb).
  - vm_compute. split; discriminate.
  - exists s. split; [exact Hs|]. apply (Hb 90%Z). lia.
Defined.

Module WideFacts.
Import Binary64 Binary64Facts RneFacts RoundFacts RoundedFacts PyFacts.
Import ScriptFacts AllocFacts ScoreFacts PipelineFacts HeatFacts ExactFacts.
Import WeatherFacts ScoreTable.

Lemma patient_load_widest_low : patient_load widest_low = Some 0.
Proof. vm_compute. reflexivity. Qed.

Lemma patient_load_widest_high : patient_load widest_high = Some 179988450.
Proof. vm_compute. reflexivity. Qed.

Lemma total_patients_in_wide_range (i : ScenarioInput) :
  in_wide_range i ->
  exists n, total_patients i = Some n /\ (0 <= n <= 179988450)%Z.
Proof.
  intros (Ha & Ht & Hh).
  destruct (venue_multiplier_range (venue_type i)) as [Hv1 Hv2].
  destruct (patient_load_between widest_low i widest_high 0 179988450)
    as (p & Hp & Hl & Hu);
    cbn [widest_low widest_high attendance temp humidity venue_type];
    try lia; try assumption.
  - exact patient_load_widest_low.
  - exact patient_load_widest_high.
  - unfold total_patients. rewrite Hp. cbn [bind]. eexists. split; [reflexivity|].
    apply int_of_float_mono in Hl, Hu.
    change (int_of_float 0) with 0%Z in Hl.
    change (int_of_float 179988450) with 179988450%Z in Hu. lia.
Qed.

Lemma pow_facts : (179988450 <= 10 ^ 14 /\ 10 ^ 14 <= 2 ^ 1000)%Z.
Proof. split; vm_compute; discriminate. Qed.

(** Off the multiples of 20 both buckets are the exact floors, for any
    total up to [10^14]. *)
Lemma alloc_exact_off_multiples (n : Z) :
  (0 <= n <= 10 ^ 14)%Z -> n mod 20 <> 0%Z ->
  onsite_treat n = Some (65 * n / 100)%Z /\
  acs_telehealth n = Some (15 * n / 100)%Z.
Proof.
  intros Hn Hm.
  destruct (onsite_treat_defined n Hn) as (on & Hon).
  destruct (acs_telehealth_defined n Hn) as (acs & Hacs).
  pose proof (onsite_treat_bounds n on Hn Hon).
  pose proof (acs_telehealth_bounds n acs Hn Hacs).
  rewrite Hon, Hacs. split; f_equal; Z.div_mod_to_equations; lia.
Qed.

End WideFacts.

Import WideFacts.

(** X8. The script raises no exception far outside the slider ranges: for
    every attendance from 0 to a million, every temperature and humidity
    between minus and plus a million and any venue label it runs to
    completion, none of the total and its three buckets is negative, and
    the capped score lies between 80 and 200. *)
Theorem evaluate_total_on_wide_range (i : ScenarioInput) :
  in_wide_range i ->
  exists est,
    evaluate i = Some est /\
    (0 <= totalPatients est)%Z /\
    (0 <= onSite est)%Z /\ (0 <= deflected est)%Z /\
    (0 <= edTransports est <= totalPatients est)%Z /\
    (80 <= nedocsScoreCapped est <= 200)%Z.
Proof.
  intros Hi. destruct (total_patients_in_wide_range i Hi) as (n & Hn & Hrange).
  destruct pow_facts as [P1 P2].
  destruct (onsite_treat_defined n ltac:(lia)) as (on & Hon).
  destruct (acs_telehealth_defined n ltac:(lia)) as (acs & Hacs).
  destruct (buckets_le_total n on acs ltac:(lia) Hon Hacs) as (Hon0 & Hacs0 & Hle).
  set (ed := ed_transports n on acs).
  assert (Hed : (0 <= ed <= n)%Z) by (unfold ed, ed_transports; lia).
  pose proof (nedocs_score_closed_form ed ltac:(lia)) as Hs.
  destruct (nedocs_score_raw _ _ Hs) as (r & Hr & _).
  eexists (mkSurgeEstimate n on acs ed r _ _).
  cbn [totalPatients onSite deflected edTransports nedocsScoreCapped].
  split.
  { unfold evaluate. rewrite Hn. cbn [bind]. rewrite Hon. cbn [bind].
    rewrite Hacs. cbn [bind]. cbv zeta. fold ed. rewrite Hr. cbn [bind].
    rewrite Hs. cbn [bind]. rewrite banner_eq. cbn [bind]. reflexivity. }
  split; [lia|]. split; [exact Hon0|]. split; [exact Hacs0|]. split; [exact Hed|].
  Z.div_mod_to_equations. lia.
Qed.

Lemma evaluate_total_on_wide_range_witness :
  exists est,
    evaluate (mkScenarioInput 0 (-40) 250 "Parking lot") = Some est /\
    (0 <= totalPatients est)%Z.
Proof.
  destruct (evaluate_total_on_wide_range (mkScenarioInput 0 (-40) 250 "Parking lot"))
    as (est & Hev & H0 & _).
  - unfold in_wide_range. cbn [attendance temp humidity].
    vm_compute. repeat split; discriminate.
  - exists est. split; assumption.
Defined.

(** X9. With nobody attending, every weather and every venue give no
    patients, empty buckets and the resting score of 80; the banner is
    the normal one unless the temperature alone triggers the override. *)
Theorem empty_event (t h : Z) (v : string) :
  (- 10 ^ 6 <= t <= 10 ^ 6)%Z -> (- 10 ^ 6 <= h <= 10 ^ 6)%Z ->
  evaluate (mkScenarioInput 0 t h v)
  = Some (mkSurgeEstimate 0 0 0 0 80 80
            (if (98 <=? t)%Z then Override else Normal)).
Proof.
  intros Ht Hh.
  destruct (total_patients_in_wide_range (mkScenarioInput 0 t h v)) as (n & Hn & _).
  { unfold in_wide_range. cbn [attendance temp humidity].
    assert (0 < 10 ^ 6)%Z by reflexivity. lia. }
  assert (Hm : exists m, heat_index_multiplier t h = Some m).
  { unfold total_patients, patient_load in Hn. cbn [temp humidity] in Hn.
    apply bind_Some in Hn. destruct Hn as (p & Hp & _).
    apply bind_Some in Hp. destruct Hp as (m & Hm & _). exists m. exact Hm. }
  destruct Hm as (m & Hm).
  unfold evaluate, total_patients.
  rewrite (patient_load_empty t h v m Hm). cbn [bind].
  change (int_of_float 0) with 0%Z.
  replace (onsite_treat 0) with (Some 0%Z) by (vm_compute; reflexivity).
  replace (acs_telehealth 0) with (Some 0%Z) by (vm_compute; reflexivity).
  cbn [bind]. cbv zeta. change (ed_transports 0 0 0) with 0%Z.
  rewrite nedocs_raw_0, nedocs_score_0. cbn [bind temp].
  rewrite banner_eq. cbn [bind]. reflexivity.
Qed.

Lemma empty_event_witness :
  evaluate (mkScenarioInput 0 99 50 FanZone)
  = Some (mkSurgeEstimate 0 0 0 0 80 80 Override).
Proof.
  apply (empty_event 99 50 FanZone); vm_compute; split; discriminate.
Defined.

(** X10. One more patient can mean one fewer ED transport and a lower
    score: for every [k] a total of [20k + 6] leaves [4k + 3] transports
    and a total of [20k + 7] only [4k + 2], because both truncated buckets
    step up together; below the cap the score falls from [82 + 3k] to
    [81 + 3k]. *)
Theorem transports_dip (k : Z) :
  (0 <= k <= 10 ^ 12)%Z ->
  transports_of_total (20 * k + 6) = Some (4 * k + 3)%Z /\
  transports_of_total (20 * k + 7) = Some (4 * k + 2)%Z /\
  ((k <= 39)%Z ->
   nedocs_score (4 * k + 3) = Some (82 + 3 * k)%Z /\
   nedocs_score (4 * k + 2) = Some (81 + 3 * k)%Z).
Proof.
  intros Hk.
  assert (P : (10 ^ 12 = 1000000000000 /\ 10 ^ 14 = 100000000000000)%Z)
    by (split; reflexivity).
  destruct pow_facts as [_ P2].
  destruct (alloc_exact_off_multiples (20 * k + 6)) as [A1 B1];
    [lia | Z.div_mod_to_equations; lia |].
  destruct (alloc_exact_off_multiples (20 * k + 7)) as [A2 B2];
    [lia | Z.div_mod_to_equations; lia |].
  unfold transports_of_total. rewrite A1, B1, A2, B2. cbn [bind].
  unfold ed_transports.
  split; [f_equal; Z.div_mod_to_equations; lia|].
  split; [f_equal; Z.div_mod_to_equations; lia|].
  intros Hk39.
  rewrite !nedocs_score_closed_form by lia.
  split; f_equal; Z.div_mod_to_equations; lia.
Qed.

Lemma transports_dip_witness :
  transports_of_total 6 = Some 3%Z /\ transports_of_total 7 = Some 2%Z /\
  nedocs_score 3 = Some 82%Z /\ nedocs_score 2 = Some 81%Z.
Proof.
  destruct (transports_dip 0) as (H1 & H2 & H3);
    [vm_compute; split; discriminate|].
  destruct H3 as [H3 H4]; [lia|].
  repeat split; assumption.
Defined.

(** X11. Up to the largest total the sliders can produce, one more
    patient moves the transport count by at most one, up or down. *)
Theorem transports_change_by_at_most_one (n : Z) :
  (0 <= n < 1417)%Z ->
  exists e e',
    transports_of_total n = Some e /\
    transports_of_total (n + 1) = Some e' /\
    (-1 <= e' - e <= 1)%Z.
Proof.
  intros Hn.
  destruct (alloc_exact_in_range n ltac:(lia)) as [A1 B1].
  destruct (alloc_exact_in_range (n + 1) ltac:(lia)) as [A2 B2].
  unfold transports_of_total. rewrite A1, B1, A2, B2. cbn [bind].
  eexists. eexists. split; [reflexivity|]. split; [reflexivity|].
  unfold ed_transports. Z.div_mod_to_equations. lia.
Qed.

Lemma transports_change_by_at_most_one_witness :
  exists e e',
    transports_of_total 96 = Some e /\
    transports_of_total 97 = Some e' /\
    (-1 <= e' - e <= 1)%Z.
Proof.
  apply (transports_change_by_at_most_one 96). lia.
Defined.

Module RateFacts.
Import Binary64 Binary64Facts RneFacts RoundFacts RoundedFacts PyFacts.
Import ScriptFacts AllocFacts ScoreFacts PipelineFacts HeatFacts ExactFacts.
Import WeatherFacts ScoreTable WideFacts.

Lemma rate_exact_on_steps : forallb rate_exact (Zrange 2 29) = true.
Proof. vm_compute. reflexivity. Qed.

(** In mild weather the load is the attendance over 10000, times 15,
    times the venue multiplier, whatever the temperature and humidity
    below the reference points. *)
Lemma patient_load_cool (a t h : Z) (v : string) :
  (- 10 ^ 6 <= t <= 85)%Z -> (- 10 ^ 6 <= h <= 60)%Z ->
  patient_load (mkScenarioInput a t h v)
  = patient_load (mkScenarioInput a 85 60 v).
Proof.
  intros Ht Hh.
  assert (Hpow : (0 < 10 ^ 6 /\ 10 ^ 6 + 85 <= 2 ^ 1023)%Z).
  { split; vm_compute; [reflexivity | discriminate]. }
  destruct (float_of_int_defined (t - 85)) as (x & Hx); [lia|].
  destruct (float_of_int_defined (h - 60)) as (y & Hy); [lia|].
  unfold patient_load. cbn [attendance temp humidity venue_type].
  rewrite (heat_index_multiplier_cool t h x y ltac:(lia) ltac:(lia) Hx Hy).
  replace (heat_index_multiplier 85 60) with (Some (1 : pyfloat))
    by (vm_compute; reflexivity).
  reflexivity.
Qed.

(** On the slider's attendance steps, in mild weather, the total is the
    exact floor of 15 patients per 10,000 attendees, doubled in the fan
    zone. *)
Lemma total_patients_cool (i : ScenarioInput) :
  in_slider_range i -> on_attendance_step i ->
  (temp i <= 85)%Z -> (humidity i <= 60)%Z ->
  total_patients i
  = Some (15 * attendance i * (if String.eqb (venue_type i) FanZone then 2 else 1)
          / 10000)%Z.
Proof.
  intros Hi Hm Ht Hh. destruct Hi as (Ha & Ht' & Hh' & Hv).
  destruct i as [a t h v]. unfold on_attendance_step in Hm.
  cbn [attendance temp humidity venue_type] in *.
  assert (P : (10 ^ 6 = 1000000)%Z) by reflexivity.
  unfold total_patients.
  rewrite (patient_load_cool a t h v) by lia.
  assert (Hk : a = (5000 * (a / 5000))%Z) by (pose proof (Z.div_mod a 5000); lia).
  pose proof (proj1 (forallb_forall _ _) rate_exact_on_steps (a / 5000)%Z
                (In_Zrange 2 (a / 5000) 29
                   ltac:(Z.div_mod_to_equations; lia))) as H.
  unfold rate_exact in H. rewrite <- Hk in H. unfold total_patients in H.
  destruct Hv as [-> | ->];
    destruct (patient_load (mkScenarioInput a 85 60 Stadium)) as [ps|];
    try discriminate;
    destruct (patient_load (mkScenarioInput a 85 60 FanZone)) as [pf|];
    try (cbn in H; discriminate);
    cbn [bind] in H |- *; apply andb_true_iff in H; destruct H as [Hs Hf];
    apply Z.eqb_eq in Hs, Hf.
  - change (String.eqb Stadium FanZone) with false.
    f_equal. rewrite Hs. f_equal. lia.
  - change (String.eqb FanZone FanZone) with true.
    f_equal. rewrite Hf. f_equal. lia.
Qed.

End RateFacts.

Module TierFacts.
Import Binary64 Binary64Facts RneFacts RoundFacts RoundedFacts PyFacts.
Import ScriptFacts AllocFacts ScoreFacts PipelineFacts HeatFacts ExactFacts.
Import WeatherFacts ScoreTable WideFacts RateFacts.

(** On the slider ranges, an input below a corner input in every
    component has at most the corner's total, hence at most a fifth of it
    plus two transports, and a score bounded accordingly. *)
Lemma evaluate_below_corner (i c : ScenarioInput) (pc : Q) (N : Z) :
  in_slider_range i ->
  (attendance i <= attendance c)%Z ->
  (temp i <= temp c)%Z ->
  (humidity i <= humidity c)%Z ->
  venue_multiplier (venue_type i) <= venue_multiplier (venue_type c) ->
  patient_load c = Some pc -> int_of_float pc = N ->
  exists est,
    evaluate i = Some est /\
    (totalPatients est <= N)%Z /\
    (5 * edTransports est <= N + 10)%Z /\
    nedocsScoreCapped est = Z.min ((320 + 3 * edTransports est) / 4) 200 /\
    banner (temp i) (nedocsScoreCapped est) = Some (tier est).
Proof.
  intros Hi Ha Ht Hh Hv Hc HN.
  destruct (evaluate_in_range i Hi)
    as (est & Hev & Hn & Hr & Hon & Hacs & Hed & Hedr & _ & Hs & _ & Hb).
  exists est. split; [exact Hev|].
  assert (Hle : (totalPatients est <= N)%Z).
  { destruct Hi as (Ha' & Ht' & Hh' & Hv').
    destruct (venue_multiplier_range (venue_type i)) as [Hv1 _].
    destruct (patient_load_between lowest_input i c 15 pc)
      as (p & Hp & _ & Hu);
      cbn [lowest_input attendance temp humidity venue_type];
      try lia; try assumption.
    - exact patient_load_lowest.
    - unfold total_patients in Hn. rewrite Hp in Hn. cbn [bind] in Hn.
      injection Hn as Hn. rewrite <- Hn, <- HN. apply int_of_float_mono, Hu. }
  split; [exact Hle|]. split.
  - rewrite Hed, Hon, Hacs. unfold ed_transports.
    Z.div_mod_to_equations. lia.
  - split; [|exact Hb].
    destruct pow_facts as [_ P2].
    assert (P : (10 ^ 14 = 100000000000000)%Z) by reflexivity.
    rewrite (nedocs_score_closed_form (edTransports est)) in Hs by lia.
    injection Hs as Hs. symmetry. exact Hs.
Qed.

Lemma capped_score_range (i : ScenarioInput) (est : SurgeEstimate) :
  (0 <= attendance i)%Z -> evaluate i = Some est ->
  (80 <= nedocsScoreCapped est <= 200)%Z.
Proof.
  intros Ha Hev.
  destruct (evaluate_Some i est Hev) as (Hn & Hon & Hacs & Hed & Hraw & Hs & _).
  pose proof (total_patients_nonneg i _ Ha Hn) as Hn0.
  destruct (buckets_le_total _ _ _ Hn0 Hon Hacs) as (_ & _ & Hle).
  assert (Hed0 : (0 <= edTransports est)%Z).
  { rewrite Hed. unfold ed_transports. lia. }
  split; [|exact (nedocs_score_le_200 _ _ Hs)].
  destruct (nedocs_score_between 0 0 (edTransports est) 80 _ ltac:(lia)
              nedocs_score_0 Hs) as (s & Hs0 & _ & H).
  rewrite nedocs_score_0 in Hs0. injection Hs0 as <-. exact H.
Qed.

Lemma py_str_neg (n : Z) : (0 < n)%Z -> ("-" ++ py_str n)%string = py_str (- n).
Proof. destruct n as [|p|p]; intros H; try lia. reflexivity. Qed.

End TierFacts.

Import RateFacts TierFacts.

(** X12. On the slider's attendance steps the base rate of line 25 is met
    exactly: in mild weather (at most 85 degrees and 60% humidity) the
    total is the exact floor of 15 patients per 10,000 attendees in the
    stadium and of 30 per 10,000 in the fan zone. *)
Theorem base_rate_on_slider_steps (i : ScenarioInput) :
  in_slider_range i -> on_attendance_step i ->
  (temp i <= 85)%Z -> (humidity i <= 60)%Z ->
  total_patients i
  = Some (15 * attendance i * (if String.eqb (venue_type i) FanZone then 2 else 1)
          / 10000)%Z.
Proof. exact (total_patients_cool i). Qed.

Lemma base_rate_on_slider_steps_witness :
  total_patients (mkScenarioInput 65000 70 40 FanZone) = Some 195%Z.
Proof.
  apply (base_rate_on_slider_steps (mkScenarioInput 65000 70 40 FanZone)).
  - unfold in_slider_range. cbn. repeat split; try lia. right. reflexivity.
  - reflexivity.
  - cbn. lia.
  - cbn. lia.
Defined.

(** X13. A stadium in mild weather never alarms: for every attendance the
    slider range allows, at most 85 degrees and at most 60% humidity, the
    stadium gets at most 225 patients and 47 transports, a score of at
    most 115, and the normal banner. *)
Theorem mild_stadium_is_normal (i : ScenarioInput) :
  in_slider_range i -> venue_type i = Stadium ->
  (temp i <= 85)%Z -> (humidity i <= 60)%Z ->
  exists est,
    evaluate i = Some est /\
    (totalPatients est <= 225)%Z /\ (edTransports est <= 47)%Z /\
    (nedocsScoreCapped est <= 115)%Z /\ tier est = Normal.
Proof.
  intros Hi Hv Ht Hh.
  destruct (evaluate_below_corner i (mkScenarioInput 150000 85 60 Stadium) 225 225 Hi)
    as (est & Hev & Hn & Hed & Hs & Hb);
    cbn [attendance temp humidity venue_type]; try assumption.
  - destruct Hi as (Ha & _). lia.
  - rewrite Hv. apply Qle_refl.
  - vm_compute. reflexivity.
  - reflexivity.
  - exists est. split; [exact Hev|]. split; [exact Hn|].
    assert (He : (edTransports est <= 47)%Z) by lia.
    assert (Hc : (nedocsScoreCapped est <= 115)%Z).
    { rewrite Hs. Z.div_mod_to_equations. lia. }
    split; [exact He|]. split; [exact Hc|].
    rewrite banner_eq in Hb.
    destruct (Z.leb_spec 98 (temp i)); [lia|].
    destruct (Z.leb_spec 140 (nedocsScoreCapped est)); [lia|].
    destruct (Z.leb_spec 133 (nedocsScoreCapped est)); [lia|].
    injection Hb as <-. reflexivity.
Qed.

Lemma mild_stadium_is_normal_witness :
  exists est,
    evaluate (mkScenarioInput 150000 85 60 Stadium) = Some est /\
    tier est = Normal.
Proof.
  destruct (mild_stadium_is_normal (mkScenarioInput 150000 85 60 Stadium))
    as (est & Hev & _ & _ & _ & Ht).
  - unfold in_slider_range. cbn. repeat split; try lia. left. reflexivity.
  - reflexivity.
  - cbn. lia.
  - cbn. lia.
  - exists est. split; assumption.
Defined.

(** X14. The override banner fires on temperature alone, whatever the
    gauge shows: for every slider input with at most 20000 attendees and
    at least 98 degrees the banner is the override one although the score
    is at most 109, below the warning threshold of line 58 and the
    critical one of line 11. *)
Theorem override_with_low_score (i : ScenarioInput) :
  in_slider_range i -> (attendance i <= 20000)%Z -> (98 <= temp i)%Z ->
  exists est,
    evaluate i = Some est /\
    tier est = Override /\
    (nedocsScoreCapped est <= 109)%Z /\
    (nedocsScoreCapped est < CRITICAL_NEDOCS_THRESHOLD)%Z.
Proof.
  intros Hi Ha Ht.
  destruct (evaluate_below_corner i (mkScenarioInput 20000 120 100 FanZone)
              189 189 Hi)
    as (est & Hev & Hn & Hed & Hs & Hb);
    cbn [attendance temp humidity venue_type]; try assumption.
  - destruct Hi as (_ & Ht' & _). lia.
  - destruct Hi as (_ & _ & Hh' & _). lia.
  - change (venue_multiplier FanZone) with 2.
    apply (venue_multiplier_range (venue_type i)).
  - vm_compute. reflexivity.
  - reflexivity.
  - exists est. split; [exact Hev|].
    assert (Hc : (nedocsScoreCapped est <= 109)%Z).
    { rewrite Hs. Z.div_mod_to_equations. lia. }
    rewrite banner_eq in Hb.
    destruct (Z.leb_spec 98 (temp i)); [|lia].
    injection Hb as <-. split; [reflexivity|].
    split; [exact Hc|]. unfold CRITICAL_NEDOCS_THRESHOLD. lia.
Qed.

Lemma override_with_low_score_witness :
  exists est,
    evaluate (mkScenarioInput 10000 98 10 Stadium) = Some est /\
    tier est = Override /\ (nedocsScoreCapped est <= 109)%Z.
Proof.
  destruct (override_with_low_score (mkScenarioInput 10000 98 10 Stadium))
    as (est & Hev & Ht & Hc & _).
  - unfold in_slider_range. cbn. repeat split; try lia. left. reflexivity.
  - cbn. lia.
  - cbn. lia.
  - exists est. repeat split; assumption.
Defined.

(** X15. The waterfall's labels (lines 113-116): for every total from 7
    up to 10^14 the four labels are the printed values of the four bars;
    for a total below 7 the deflected bucket is empty and its label reads
    "-0" while its bar is 0. *)
Theorem waterfall_labels (n : Z) :
  (0 <= n <= 10 ^ 14)%Z ->
  exists on acs,
    onsite_treat n = Some on /\ acs_telehealth n = Some acs /\
    ((7 <= n)%Z ->
     wf_text (fig_waterfall n on acs (ed_transports n on acs))
     = List.map py_str (wf_y (fig_waterfall n on acs (ed_transports n on acs)))) /\
    ((n < 7)%Z ->
     acs = 0%Z /\
     nth 2 (wf_text (fig_waterfall n on acs (ed_transports n on acs))) "" = "-0" /\
     py_str (nth 2 (wf_y (fig_waterfall n on acs (ed_transports n on acs))) 0%Z) = "0").
Proof.
  intros Hn.
  destruct (onsite_treat_defined n Hn) as (on & Hon).
  destruct (acs_telehealth_defined n Hn) as (acs & Hacs).
  pose proof (onsite_treat_bounds n on Hn Hon) as B1.
  pose proof (acs_telehealth_bounds n acs Hn Hacs) as B2.
  destruct (buckets_le_total n on acs ltac:(lia) Hon Hacs) as (Hon0 & Hacs0 & _).
  exists on, acs. split; [exact Hon|]. split; [exact Hacs|]. split.
  - intros H7. unfold fig_waterfall. cbn [wf_text wf_y List.map].
    rewrite (py_str_neg on) by lia. rewrite (py_str_neg acs) by lia. reflexivity.
  - intros H7. assert (E : acs = 0%Z) by lia. subst acs.
    split; [reflexivity|]. split; reflexivity.
Qed.

Lemma waterfall_labels_witness :
  exists on acs,
    onsite_treat 97 = Some on /\ acs_telehealth 97 = Some acs /\
    wf_text (fig_waterfall 97 on acs (ed_transports 97 on acs))
    = List.map py_str (wf_y (fig_waterfall 97 on acs (ed_transports 97 on acs))).
Proof.
  destruct (waterfall_labels 97) as (on & acs & Hon & Hacs & H & _).
  - vm_compute. split; discriminate.
  - exists on, acs. split; [exact Hon|]. split; [exact Hacs|]. apply H. lia.
Defined.

(** X16. The gauge (lines 82-103) and the banner agree: for every
    non-negative attendance on which the script runs, the needle is
    within the axis, inside a band other than the green one, and inside
    the red band exactly when it has reached the threshold marker, which
    below 98 degrees is exactly when the banner is the critical one. *)
Theorem gauge_agrees_with_banner (i : ScenarioInput) (est : SurgeEstimate) :
  (0 <= attendance i)%Z -> evaluate i = Some est ->
  (gauge_value (fig_gauge (nedocsScoreCapped est))
   <= gauge_axis_max (fig_gauge (nedocsScoreCapped est)))%Z /\
  (exists band,
     In band (gauge_steps (fig_gauge (nedocsScoreCapped est))) /\
     band_holds (nedocsScoreCapped est) band /\ snd band <> "green") /\
  (band_holds (nedocsScoreCapped est) (140, 200, "red")%Z <->
   (gauge_threshold (fig_gauge (nedocsScoreCapped est))
    <= nedocsScoreCapped est)%Z) /\
  ((temp i < 98)%Z ->
   (tier est = Critical <->
    band_holds (nedocsScoreCapped est) (140, 200, "red")%Z)).
Proof.
  intros Ha Hev.
  pose proof (capped_score_range i est Ha Hev) as [Hlo Hhi].
  destruct (evaluate_Some i est Hev) as (_ & _ & _ & _ & _ & _ & Hb).
  set (s := nedocsScoreCapped est) in *.
  unfold fig_gauge, band_holds. cbn [gauge_value gauge_axis_max gauge_steps
    gauge_threshold fst snd]. unfold CRITICAL_NEDOCS_THRESHOLD.
  split; [exact Hhi|]. split; [|split].
  - destruct (Z_le_gt_dec s 100) as [H1 | H1];
      [|destruct (Z_le_gt_dec s 140) as [H2 | H2]].
    + exists (80, 100, "yellow")%Z. cbn [fst snd In].
      split; [right; left; reflexivity|]. split; [lia | discriminate].
    + exists (100, 140, "orange")%Z. cbn [fst snd In].
      split; [right; right; left; reflexivity|]. split; [lia | discriminate].
    + exists (140, 200, "red")%Z. cbn [fst snd In].
      split; [right; right; right; left; reflexivity|]. split; [lia | discriminate].
  - split; intros; lia.
  - intros Ht. rewrite banner_eq in Hb.
    destruct (Z.leb_spec 98 (temp i)); [lia|].
    destruct (Z.leb_spec 140 s).
    + injection Hb as <-. split; [intros _; lia | reflexivity].
    + destruct (Z.leb_spec 133 s); injection Hb as <-;
        (split; [discriminate | intros; lia]).
Qed.

Lemma gauge_agrees_with_banner_witness :
  (gauge_value (fig_gauge 95) <= gauge_axis_max (fig_gauge 95))%Z.
Proof.
  destruct (gauge_agrees_with_banner (mkScenarioInput 65000 85 60 Stadium)
              (mkSurgeEstimate 97 63 14 20 95 95 Normal))
    as (H & _); [cbn; lia | vm_compute; reflexivity | exact H].
Defined.
